(** * Privacyx Balance Pass frontend (src/src/App.jsx): a shallow embedding

    The single-page app is modelled as a state machine over the React state
    of [App] together with a trace of the externally visible effects
    (HTTP fetches of the static proof files, contract calls, alerts).
    Each async handler is modelled as one atomic step of a small
    state-and-exception monad; the outcomes of the wallet, of [fetch] and of
    the contract are inputs of the step. *)

From Stdlib Require Import String Ascii List ZArith Bool Lia.
From Stdlib Require Import DecimalString.
From Stdlib Require HexString.
Import ListNotations.
Open Scope Z_scope.
Open Scope string_scope.
Set Warnings "-register-all".

(* ------------------------------------------------------------------------- *)
(** ** JavaScript values and errors *)

Module Js.

(** JSON values as returned by [Response.json()], plus [undefined], which
    property reads produce.  JSON numbers are modelled by their integer
    value (the proof files carry decimal strings). *)
Inductive jval : Type :=
| JUndef
| JNull
| JBool (b : bool)
| JNum (n : Z)
| JStr (s : string)
| JArr (xs : list jval)
| JObj (kvs : list (string * jval)).

(** A thrown [Error] instance: its [name], [message] and the optional
    [reason] / [shortMessage] fields that ethers attaches. *)
Record jserr := mk_err {
  e_name : string;
  e_message : string;
  e_reason : option string;
  e_short : option string
}.

Definition new_error (msg : string) : jserr := mk_err "Error" msg None None.
Definition type_error (msg : string) : jserr := mk_err "TypeError" msg None None.
Definition syntax_error (msg : string) : jserr := mk_err "SyntaxError" msg None None.

(** Decimal rendering of an integer, as a template literal prints it. *)
Definition dec (z : Z) : string := NilZero.string_of_int (Z.to_int z).
Definition dec_nat (n : nat) : string := dec (Z.of_nat n).

(** [String(v)] (ToString) for JSON values; arrays are joined with commas,
    [null] and [undefined] elements printing as the empty string. *)
Fixpoint to_js_string (v : jval) : string :=
  match v with
  | JUndef => "undefined"
  | JNull => "null"
  | JBool true => "true"
  | JBool false => "false"
  | JNum n => dec n
  | JStr s => s
  | JArr xs =>
      (fix join (ys : list jval) : string :=
         match ys with
         | [] => ""
         | y :: ys' =>
             let sy := match y with
                       | JUndef | JNull => ""
                       | _ => to_js_string y
                       end in
             match ys' with
             | [] => sy
             | _ => sy ++ "," ++ join ys'
             end
         end) xs
  | JObj _ => "[object Object]"
  end.

(** [Error.prototype.toString], i.e. [String(e)] for an [Error]. *)
Definition err_to_string (e : jserr) : string :=
  if String.eqb (e_name e) "" then e_message e
  else if String.eqb (e_message e) "" then e_name e
  else e_name e ++ ": " ++ e_message e.

(** [s.includes(pat)] *)
Fixpoint includes (s pat : string) : bool :=
  String.prefix pat s ||
  match s with
  | EmptyString => false
  | String _ s' => includes s' pat
  end.

(** Truthiness of an optional string field ([undefined] and [""] are falsy). *)
Definition truthy (o : option string) : bool :=
  match o with
  | Some s => negb (String.eqb s "")
  | None => false
  end.

(** ** [BigInt(x)] *)

Definition is_ws (c : ascii) : bool :=
  let n := nat_of_ascii c in
  (n =? 32)%nat || (n =? 9)%nat || (n =? 10)%nat || (n =? 11)%nat
  || (n =? 12)%nat || (n =? 13)%nat.

Fixpoint drop_ws (l : list ascii) : list ascii :=
  match l with
  | c :: l' => if is_ws c then drop_ws l' else l
  | [] => []
  end.

(** [String.prototype.trim] on the ASCII white space characters. *)
Definition trim (s : string) : string :=
  string_of_list_ascii (rev (drop_ws (rev (drop_ws (list_ascii_of_string s))))).

Definition digit_val (c : ascii) : option Z :=
  let n := Z.of_nat (nat_of_ascii c) in
  if (48 <=? n)%Z && (n <=? 57)%Z then Some (n - 48)%Z
  else if (97 <=? n)%Z && (n <=? 122)%Z then Some (n - 87)%Z
  else if (65 <=? n)%Z && (n <=? 90)%Z then Some (n - 55)%Z
  else None.

Fixpoint digits_in (base : Z) (s : string) (acc : Z) : option Z :=
  match s with
  | EmptyString => Some acc
  | String c s' =>
      match digit_val c with
      | Some d => if (d <? base)%Z then digits_in base s' (acc * base + d)%Z else None
      | None => None
      end
  end.

Definition some_digits (base : Z) (s : string) : option Z :=
  match s with
  | EmptyString => None
  | _ => digits_in base s 0
  end.

Definition radix_of (c : ascii) : option Z :=
  match c with
  | "x"%char | "X"%char => Some 16
  | "o"%char | "O"%char => Some 8
  | "b"%char | "B"%char => Some 2
  | _ => None
  end.

(** StringToBigInt: trimmed; empty is 0; a signed decimal literal, or a
    [0x] / [0o] / [0b] literal without sign. *)
Definition string_to_bigint (s : string) : option Z :=
  match trim s with
  | EmptyString => Some 0
  | String "0"%char (String r rest) as t =>
      match radix_of r with
      | Some base => some_digits base rest
      | None => some_digits 10 t
      end
  | String "-"%char rest => option_map Z.opp (some_digits 10 rest)
  | String "+"%char rest => some_digits 10 rest
  | t => some_digits 10 t
  end.

Definition string_big (s : string) : Z + jserr :=
  match string_to_bigint s with
  | Some z => inl z
  | None => inr (syntax_error ("Cannot convert " ++ s ++ " to a BigInt"))
  end.

(** [BigInt(v)]; arrays and objects go through ToPrimitive, i.e. their
    string form. *)
Definition big_of (v : jval) : Z + jserr :=
  match v with
  | JUndef => inr (type_error "Cannot convert undefined to a BigInt")
  | JNull => inr (type_error "Cannot convert null to a BigInt")
  | JBool b => inl (if b then 1 else 0)%Z
  | JNum n => inl n
  | JStr s => string_big s
  | JArr _ | JObj _ => string_big (to_js_string v)
  end.

(** ** Property reads *)

(** JSON.parse keeps the last binding of a duplicated key. *)
Definition obj_lookup (kvs : list (string * jval)) (k : string) : jval :=
  match find (fun kv => String.eqb (fst kv) k) (rev kvs) with
  | Some (_, v) => v
  | None => JUndef
  end.

Definition read_error (what k : string) : jserr :=
  type_error ("Cannot read properties of " ++ what ++ " (reading '" ++ k ++ "')").

(** [v.k] for a non-index key [k]. *)
Definition get_prop (v : jval) (k : string) : jval + jserr :=
  match v with
  | JUndef => inr (read_error "undefined" k)
  | JNull => inr (read_error "null" k)
  | JStr s => inl (if String.eqb k "length" then JNum (Z.of_nat (String.length s)) else JUndef)
  | JArr xs => inl (if String.eqb k "length" then JNum (Z.of_nat (length xs)) else JUndef)
  | JObj kvs => inl (obj_lookup kvs k)
  | JBool _ | JNum _ => inl JUndef
  end.

(** [v[i]] for an index [i]. *)
Definition get_idx (v : jval) (i : nat) : jval + jserr :=
  match v with
  | JUndef => inr (read_error "undefined" (dec_nat i))
  | JNull => inr (read_error "null" (dec_nat i))
  | JStr s => inl (match String.get i s with
                   | Some c => JStr (String c EmptyString)
                   | None => JUndef
                   end)
  | JArr xs => inl (nth i xs JUndef)
  | JObj kvs => inl (obj_lookup kvs (dec_nat i))
  | JBool _ | JNum _ => inl JUndef
  end.

Inductive key := KProp (k : string) | KIdx (i : nat).

Fixpoint path_get (v : jval) (ks : list key) : jval + jserr :=
  match ks with
  | [] => inl v
  | KProp k :: ks' => match get_prop v k with inl v' => path_get v' ks' | inr e => inr e end
  | KIdx i :: ks' => match get_idx v i with inl v' => path_get v' ks' | inr e => inr e end
  end.

(** [toBig(v.k1[k2]...)] *)
Definition big_at (v : jval) (ks : list key) : Z + jserr :=
  match path_get v ks with
  | inl x => big_of x
  | inr e => inr e
  end.

End Js.
Import Js.

(* ------------------------------------------------------------------------- *)
(** ** Contract calldata and observable effects *)

(** ABI values passed to ethers: [uint256] as [bigint], and arrays. *)
Inductive abi_val := VUint (n : Z) | VArr (xs : list abi_val).

(** Externally visible effects of the app. *)
Inductive effect :=
| EFetch (path : string)                    (* fetch(path) *)
| ECall (fn : string) (args : list abi_val) (* contract.fn(...args) *)
| EAlert (msg : string).                    (* alert(msg) *)

(* ------------------------------------------------------------------------- *)
(** ** The AccessGranted feed entries *)

Module Entry.

(** [event.log], when present. *)
Module Log.
Record t := mk { transactionHash : string; blockNumber : Z }.
End Log.

(** One delivery of [AccessGranted(caller, nullifier, root)] to [handler]. *)
Record delivery := mk_delivery {
  d_caller : string;
  d_nullifier : string;
  d_root : Z;
  d_log : option Log.t
}.

(** [{ caller, nullifier, root, txHash, blockNumber }] *)
Record t := mk {
  caller : string;
  nullifier : string;
  root : Z;
  txHash : option string;
  blockNumber : option Z
}.

(** The object literal built by [handler]; [event.log?.x] is [undefined]
    when the log is absent. *)
Definition of_delivery (d : delivery) : t :=
  mk (d_caller d) (d_nullifier d) (d_root d)
     (option_map Log.transactionHash (d_log d))
     (option_map Log.blockNumber (d_log d)).

End Entry.

(* ------------------------------------------------------------------------- *)
(** ** React state of [App] *)

Module App.

(** Build-time configuration ([import.meta.env]). *)
Record config := mk_config {
  EXPECTED_CHAIN_ID : Z;
  BALANCE_ACCESS_ADDRESS : option string
}.

(** The [useState] cells read by the handlers ([darkMode] omitted).
    [provider] records whether a [BrowserProvider] is held, [signer] the
    address of the held signer. *)
Record ui := mk_ui {
  account : option string;
  provider : bool;
  signer : option string;
  chainId : option Z;
  networkOk : bool;
  currentRoot : option Z;
  threshold : option Z;
  status : string;
  txHash : option string;
  error : option string;
  loading : bool;
  accessEvents : list Entry.t
}.

Definition ui_init : ui :=
  mk_ui None false None None false None None "" None None false [].

Definition with_account u x := mk_ui x (provider u) (signer u) (chainId u) (networkOk u) (currentRoot u) (threshold u) (status u) (txHash u) (error u) (loading u) (accessEvents u).
Definition with_provider u x := mk_ui (account u) x (signer u) (chainId u) (networkOk u) (currentRoot u) (threshold u) (status u) (txHash u) (error u) (loading u) (accessEvents u).
Definition with_signer u x := mk_ui (account u) (provider u) x (chainId u) (networkOk u) (currentRoot u) (threshold u) (status u) (txHash u) (error u) (loading u) (accessEvents u).
Definition with_chainId u x := mk_ui (account u) (provider u) (signer u) x (networkOk u) (currentRoot u) (threshold u) (status u) (txHash u) (error u) (loading u) (accessEvents u).
Definition with_networkOk u x := mk_ui (account u) (provider u) (signer u) (chainId u) x (currentRoot u) (threshold u) (status u) (txHash u) (error u) (loading u) (accessEvents u).
Definition with_currentRoot u x := mk_ui (account u) (provider u) (signer u) (chainId u) (networkOk u) x (threshold u) (status u) (txHash u) (error u) (loading u) (accessEvents u).
Definition with_threshold u x := mk_ui (account u) (provider u) (signer u) (chainId u) (networkOk u) (currentRoot u) x (status u) (txHash u) (error u) (loading u) (accessEvents u).
Definition with_status u x := mk_ui (account u) (provider u) (signer u) (chainId u) (networkOk u) (currentRoot u) (threshold u) x (txHash u) (error u) (loading u) (accessEvents u).
Definition with_txHash u x := mk_ui (account u) (provider u) (signer u) (chainId u) (networkOk u) (currentRoot u) (threshold u) (status u) x (error u) (loading u) (accessEvents u).
Definition with_error u x := mk_ui (account u) (provider u) (signer u) (chainId u) (networkOk u) (currentRoot u) (threshold u) (status u) (txHash u) x (loading u) (accessEvents u).
Definition with_loading u x := mk_ui (account u) (provider u) (signer u) (chainId u) (networkOk u) (currentRoot u) (threshold u) (status u) (txHash u) (error u) x (accessEvents u).
Definition with_accessEvents u x := mk_ui (account u) (provider u) (signer u) (chainId u) (networkOk u) (currentRoot u) (threshold u) (status u) (txHash u) (error u) (loading u) x.

(** The state of the page: React state and the effects performed so far. *)
Record world := mk_world { w_ui : ui; w_trace : list effect }.

Definition world_init : world := mk_world ui_init [].

(** *** A state-and-exception monad for the async handlers *)

Definition M (A : Type) : Type := world -> world * (A + jserr).

Definition ret {A} (a : A) : M A := fun w => (w, inl a).

Definition bind {A B} (m : M A) (k : A -> M B) : M B :=
  fun w => let (w1, r) := m w in
           match r with
           | inl a => k a w1
           | inr e => (w1, inr e)
           end.

Notation "x <- m ;; k" := (bind m (fun x => k))
  (at level 61, m at next level, right associativity).
Notation "m ;; k" := (bind m (fun _ => k))
  (at level 61, right associativity).

Definition throw {A} (e : jserr) : M A := fun w => (w, inr e).

Definition lift {A} (r : A + jserr) : M A := fun w => (w, r).

Definition get_ui : M ui := fun w => (w, inl (w_ui w)).

Definition set (f : ui -> ui) : M unit :=
  fun w => (mk_world (f (w_ui w)) (w_trace w), inl tt).

Definition emit (e : effect) : M unit :=
  fun w => (mk_world (w_ui w) (app (w_trace w) [e]), inl tt).

(** [try { m } catch (e) { h(e) } finally { f }] *)
Definition try_catch_finally {A} (m : M A) (h : jserr -> M A) (f : M unit) : M A :=
  fun w => let (w1, r) := m w in
           let (w2, r2) := match r with
                           | inl a => (w1, inl a)
                           | inr e => h e w1
                           end in
           let (w3, r3) := f w2 in
           match r3 with
           | inl _ => (w3, r2)
           | inr e => (w3, inr e)
           end.

Definition try_catch {A} (m : M A) (h : jserr -> M A) : M A :=
  try_catch_finally m h (ret tt).

Fixpoint map_m {A B} (f : A -> M B) (xs : list A) : M (list B) :=
  match xs with
  | [] => ret []
  | x :: xs' => y <- f x ;; ys <- map_m f xs' ;; ret (y :: ys)
  end.

(** A JavaScript object held in a state cell is truthy. *)
Definition present {A} (o : option A) : bool :=
  match o with Some _ => true | None => false end.

(** [o || k] for an optional string field. *)
Definition first_truthy (o : option string) (k : string) : string :=
  match o with
  | Some s => if String.eqb s "" then k else s
  | None => k
  end.

(** [e.message || String(e)] *)
Definition message_or_string (e : jserr) : string :=
  first_truthy (Some (e_message e)) (err_to_string e).

(** *** [connectWallet] *)

(** What the wallet answers: whether [getEthereumProvider()] finds a
    provider, then [eth_requestAccounts], [eth_chainId] and
    [prov.getSigner()] (the signer is identified by its address). *)
Record connect_env := mk_connect_env {
  eth_present : bool;
  accounts_res : list string + jserr;
  chainId_res : jval + jserr;
  signer_res : string + jserr
}.

Definition connectWallet (cfg : config) (env : connect_env) : M unit :=
  try_catch
    (set (fun u => with_error u None) ;;
     set (fun u => with_status u "") ;;
     if negb (eth_present env) then
       emit (EAlert "No Ethereum provider detected. Please install MetaMask.")
     else
       (accounts <- lift (accounts_res env) ;;
        match accounts with
        | [] => throw (new_error "No account returned by wallet")
        | addr :: _ =>
            chainIdHex <- lift (chainId_res env) ;;
            chainIdBig <- lift (big_of chainIdHex) ;;
            s <- lift (signer_res env) ;;
            set (fun u => with_provider u true) ;;
            set (fun u => with_signer u (Some s)) ;;
            set (fun u => with_account u (Some addr)) ;;
            set (fun u => with_chainId u (Some chainIdBig)) ;;
            if Z.eqb chainIdBig (EXPECTED_CHAIN_ID cfg) then
              (set (fun u => with_networkOk u true) ;;
               set (fun u => with_status u ""))
            else
              (set (fun u => with_networkOk u false) ;;
               set (fun u => with_status u
                      ("Wrong network: current chainId = " ++ dec chainIdBig
                       ++ ", expected = " ++ dec (EXPECTED_CHAIN_ID cfg))))
        end))
    (fun e => set (fun u => with_error u (Some (message_or_string e)))).

(** *** [loadContractState] (the [useEffect] on [signer]) *)

(** The values (or errors) returned by the two view calls. *)
Record load_env := mk_load_env {
  currentRoot_res : Z + jserr;
  requiredThreshold_res : Z + jserr
}.

Definition loadContractState (cfg : config) (env : load_env) : M unit :=
  u <- get_ui ;;
  if negb (present (signer u)) || negb (truthy (BALANCE_ACCESS_ADDRESS cfg)) then ret tt
  else
    try_catch
      (emit (ECall "currentRoot" []) ;;
       root <- lift (currentRoot_res env) ;;
       emit (ECall "requiredThreshold" []) ;;
       thr <- lift (requiredThreshold_res env) ;;
       set (fun u => with_currentRoot u (Some root)) ;;
       set (fun u => with_threshold u (Some thr)))
      (fun e => set (fun u => with_error u (Some (message_or_string e)))).

(** *** The [AccessGranted] [handler] *)

(** The updater passed to [setAccessEvents]. *)
Definition handler (d : Entry.delivery) (prev : list Entry.t) : list Entry.t :=
  let next := Entry.of_delivery d :: prev in
  firstn 5 next.

Definition deliver (d : Entry.delivery) : M unit :=
  set (fun u => with_accessEvents u (handler d (accessEvents u))).

(** *** [handleProveAndConsume] *)

Inductive body := BodyJson (v : jval) | BodyInvalid (e : jserr).

(** A [Response]: [res.ok] and what [res.json()] yields. *)
Record response := mk_response { ok : bool; res_body : body }.

Inductive fetch_result := FetchReject (e : jserr) | FetchOk (r : response).
Inductive wait_result := Mined (blockNumber : Z) | WaitReject (e : jserr).
Inductive send_result := SendReject (e : jserr) | Sent (hash : string) (w : wait_result).

(** The two fetches, and the outcome of [contract.proveAndConsume] and of
    [tx.wait()]. *)
Record submit_env := mk_submit_env {
  proof_fetch : fetch_result;
  public_fetch : fetch_result;
  send : send_result
}.

Definition fetch (path : string) (r : fetch_result) : M response :=
  emit (EFetch path) ;;
  match r with
  | FetchReject e => throw e
  | FetchOk resp => ret resp
  end.

Definition json (r : response) : M jval :=
  match res_body r with
  | BodyJson v => ret v
  | BodyInvalid e => throw e
  end.

(** [toBig(v.k1[k2]...)] *)
Definition toBig_at (v : jval) (ks : list key) : M Z := lift (big_at v ks).

Definition toBig (x : jval) : M Z := lift (big_of x).

Definition PUBLIC_SHAPE_MSG : string :=
  "balance_public.json must contain 2 values [root, nullifierHash], got ".

(** The [try] block of [handleProveAndConsume]. *)
Definition proveAndConsume_body (cfg : config) (env : submit_env) : M unit :=
  set (fun u => with_error u None) ;;
  set (fun u => with_txHash u None) ;;
  set (fun u => with_status u "") ;;
  set (fun u => with_loading u true) ;;
  u <- get_ui ;;
  (if negb (present (signer u)) || negb (provider u)
   then throw (new_error "Wallet not connected") else ret tt) ;;
  (if negb (networkOk u)
   then throw (new_error "Wrong network (must be Ethereum mainnet for now).") else ret tt) ;;
  (if negb (truthy (BALANCE_ACCESS_ADDRESS cfg))
   then throw (new_error "VITE_BALANCE_ACCESS_ADDRESS is not defined in .env") else ret tt) ;;
  proofRes <- fetch "/balance_proof.json" (proof_fetch env) ;;
  pubRes <- fetch "/balance_public.json" (public_fetch env) ;;
  (if negb (ok proofRes) || negb (ok pubRes)
   then throw (new_error "Unable to load balance_proof.json / balance_public.json")
   else ret tt) ;;
  proof <- json proofRes ;;
  pub <- json pubRes ;;
  match pub with
  | JArr ([_; _] as xs) =>
      a0 <- toBig_at proof [KProp "pi_a"; KIdx 0] ;;
      a1 <- toBig_at proof [KProp "pi_a"; KIdx 1] ;;
      b00 <- toBig_at proof [KProp "pi_b"; KIdx 0; KIdx 1] ;;
      b01 <- toBig_at proof [KProp "pi_b"; KIdx 0; KIdx 0] ;;
      b10 <- toBig_at proof [KProp "pi_b"; KIdx 1; KIdx 1] ;;
      b11 <- toBig_at proof [KProp "pi_b"; KIdx 1; KIdx 0] ;;
      c0 <- toBig_at proof [KProp "pi_c"; KIdx 0] ;;
      c1 <- toBig_at proof [KProp "pi_c"; KIdx 1] ;;
      input <- map_m toBig xs ;;
      let pubSignals := [nth 0 input 0; nth 1 input 0] in
      set (fun u => with_status u "Sending transaction...") ;;
      emit (ECall "proveAndConsume"
              [VArr [VUint a0; VUint a1];
               VArr [VArr [VUint b00; VUint b01]; VArr [VUint b10; VUint b11]];
               VArr [VUint c0; VUint c1];
               VArr (map VUint pubSignals)]) ;;
      match send env with
      | SendReject e => throw e
      | Sent hash wr =>
          set (fun u => with_txHash u (Some hash)) ;;
          set (fun u => with_status u "Transaction sent, waiting for confirmation...") ;;
          match wr with
          | Mined n => set (fun u => with_status u ("Access granted! Block #" ++ dec n))
          | WaitReject e => throw e
          end
      end
  | _ =>
      len <- lift (get_prop pub "length") ;;
      throw (new_error (PUBLIC_SHAPE_MSG ++ to_js_string len))
  end.

Definition NULLIFIER_USED : string := "Nullifier already used".
Definition FRIENDLY_USED : string :=
  "This ZK pass has already been used. Each proof can only be consumed once.".

(** [e?.reason || e?.shortMessage || e?.message || String(e)] *)
Definition friendly_of (e : jserr) : string :=
  first_truthy (e_reason e)
    (first_truthy (e_short e)
       (first_truthy (Some (e_message e)) (err_to_string e))).

(** The friendly error mapping of the [catch] block. *)
Definition map_error (e : jserr) : string :=
  let friendly := friendly_of e in
  if includes friendly NULLIFIER_USED || includes (err_to_string e) NULLIFIER_USED
  then FRIENDLY_USED else friendly.

Definition handleProveAndConsume (cfg : config) (env : submit_env) : M unit :=
  try_catch_finally (proveAndConsume_body cfg env)
    (fun e => set (fun u => with_error u (Some (map_error e))) ;;
              set (fun u => with_status u "Proof / transaction failed."))
    (set (fun u => with_loading u false)).

(** Whether the [try] block ran to its end. *)
Definition submit_ok (cfg : config) (env : submit_env) (w : world) : bool :=
  match snd (proveAndConsume_body cfg env w) with
  | inl _ => true
  | inr _ => false
  end.

(** *** The page as a state machine *)

Inductive action :=
| Connect (ce : connect_env)
| LoadState (le : load_env)
| Deliver (d : Entry.delivery)
| Submit (se : submit_env).

(** The listener is installed while a signer and an address are set. *)
Definition subscribed (cfg : config) (u : ui) : bool :=
  present (signer u) && truthy (BALANCE_ACCESS_ADDRESS cfg).

Definition step (cfg : config) (w : world) (a : action) : world :=
  match a with
  | Connect ce => fst (connectWallet cfg ce w)
  | LoadState le => fst (loadContractState cfg le w)
  | Deliver d => if subscribed cfg (w_ui w) then fst (deliver d w) else w
  | Submit se => fst (handleProveAndConsume cfg se w)
  end.

Definition run (cfg : config) (acts : list action) : world :=
  fold_left (step cfg) acts world_init.

End App.

(* ------------------------------------------------------------------------- *)
(** ** Vocabulary of the properties *)

Module Props.
Import App.

(** [uint256[2]] *)
Definition is_uint2 (v : abi_val) : bool :=
  match v with VArr [VUint _; VUint _] => true | _ => false end.

(** [uint256[2][2]] *)
Definition is_uint2x2 (v : abi_val) : bool :=
  match v with VArr [x; y] => is_uint2 x && is_uint2 y | _ => false end.

(** The ABI shape of [proveAndConsume(_pA, _pB, _pC, _pubSignals)]. *)
Definition calldata_shape (args : list abi_val) : bool :=
  match args with
  | [a; b; c; p] => is_uint2 a && is_uint2x2 b && is_uint2 c && is_uint2 p
  | _ => false
  end.

(** The JSON document a fetch delivers, if any. *)
Definition json_of (f : fetch_result) : option jval :=
  match f with
  | FetchOk r => match res_body r with BodyJson v => Some v | BodyInvalid _ => None end
  | FetchReject _ => None
  end.

(** [accessEvents] after the listener received [ds], oldest first, starting
    from the initial empty list. *)
Definition feed (ds : list Entry.delivery) : list Entry.t :=
  fold_left (fun prev d => handler d prev) ds [].

(** *** Concrete inputs *)

Definition ex_cfg : config := mk_config 1 (Some "0x8333b589ad3A8A5fCe735631e8EDf693C6AE0472").

(** A wallet on the expected chain. *)
Definition ex_connect (chain : string) : connect_env :=
  mk_connect_env true (inl ["0xabc"]) (inl (JStr chain)) (inl "0xabc").

Definition ex_proof : jval :=
  JObj [("pi_a", JArr [JStr "1"; JStr "2"; JStr "1"]);
        ("pi_b", JArr [JArr [JStr "3"; JStr "4"]; JArr [JStr "5"; JStr "6"];
                       JArr [JStr "1"; JStr "0"]]);
        ("pi_c", JArr [JStr "7"; JStr "8"; JStr "1"]);
        ("protocol", JStr "groth16")].

Definition ex_submit (pub : jval) (s : send_result) : submit_env :=
  mk_submit_env (FetchOk (mk_response true (BodyJson ex_proof)))
                (FetchOk (mk_response true (BodyJson pub))) s.

Definition ex_public : jval := JArr [JStr "9"; JStr "10"].

(** The page after connecting to mainnet. *)
Definition ex_world : world := run ex_cfg [Connect (ex_connect "0x1")].

Definition ex_delivery : Entry.delivery :=
  Entry.mk_delivery "0xabc" "0x2a" 77 (Some (Entry.Log.mk "0xfeed" 100)).

(** An ethers revert whose [reason] carries the contract's revert string. *)
Definition ex_revert : jserr :=
  mk_err "Error" "execution reverted" (Some "Nullifier already used") None.

(** The connection facts every reachable page state satisfies. *)
Definition conn_inv (cfg : config) (u : ui) : Prop :=
  (networkOk u = true -> chainId u = Some (EXPECTED_CHAIN_ID cfg)) /\
  (chainId u <> None -> present (signer u) = true /\ provider u = true).

End Props.
Import App Props.

(* ------------------------------------------------------------------------- *)
(** ** Provider discovery ([getEthereumProvider]) *)

Module Discovery.

(** An injected EIP-1193 provider object: its identity, its [isMetaMask]
    flag, its [providers] field when that is an array, and the values of
    its [providerMap] when that has a [values] method. *)
Inductive eprov :=
| mk_prov (id : string) (isMetaMask : bool)
    (providers : option (list pentry)) (providerMap : option (list pentry))
(** An element of a [providers] array or of a [providerMap]: [null],
    [undefined] or an object. *)
with pentry :=
| PNull
| PUndef
| PObj (p : eprov).

Definition prov_isMetaMask (p : eprov) : bool :=
  match p with mk_prov _ m _ _ => m end.
Definition prov_providers (p : eprov) : option (list pentry) :=
  match p with mk_prov _ _ ps _ => ps end.
Definition prov_providerMap (p : eprov) : option (list pentry) :=
  match p with mk_prov _ _ _ pm => pm end.

(** [if (v) candidates.add(v)]. The [Set] is kept as the list of its
    insertions, repeats included: [Array.from(candidates)] lists each
    member at its first insertion, so the first member passing a test is
    the same in both. *)
Definition add_truthy (c : list eprov) (v : pentry) : list eprov :=
  match v with
  | PObj p => app c [p]
  | PNull | PUndef => c
  end.

(** The [forEach] callback run on each element [p] of [eth.providers];
    [p.providers] throws when [p] is [null] or [undefined]. *)
Definition visit (c : list eprov) (p : pentry) : list eprov + jserr :=
  let c1 := add_truthy c p in
  match p with
  | PNull => inr (read_error "null" "providers")
  | PUndef => inr (read_error "undefined" "providers")
  | PObj q =>
      let c2 := match prov_providers q with
                | Some pps => fold_left add_truthy pps c1
                | None => c1
                end in
      inl (match prov_providerMap q with
           | Some vs => fold_left add_truthy vs c2
           | None => c2
           end)
  end.

Fixpoint visit_all (c : list eprov) (ps : list pentry) : list eprov + jserr :=
  match ps with
  | [] => inl c
  | p :: ps' =>
      match visit c p with
      | inl c' => visit_all c' ps'
      | inr e => inr e
      end
  end.

(** [Array.from(candidates)] *)
Definition candidates (eth : eprov) : list eprov + jserr :=
  match prov_providers eth with
  | Some ps => visit_all [eth] ps
  | None => inl [eth]
  end.

(** [getEthereumProvider()]; [eth] is [window.ethereum], [None] when
    [window] is undefined or [window.ethereum] is falsy. *)
Definition getEthereumProvider (eth : option eprov) : option eprov + jserr :=
  match eth with
  | None => inl None
  | Some e =>
      match candidates e with
      | inr err => inr err
      | inl all =>
          inl (Some (match find prov_isMetaMask all with
                     | Some metamask => metamask
                     | None => e
                     end))
      end
  end.

(** [q] is added to the candidates when visiting the element [p] of
    [eth.providers]: [p] itself, an object of [p.providers], or an object
    among the values of [p.providerMap]. *)
Definition reached_from (p q : eprov) : Prop :=
  q = p \/
  (exists l, prov_providers p = Some l /\ In (PObj q) l) \/
  (exists l, prov_providerMap p = Some l /\ In (PObj q) l).

(** A [window.ethereum] aggregating a Coinbase provider and MetaMask. *)
Definition ex_eth : eprov :=
  mk_prov "aggregator" false
    (Some [PObj (mk_prov "coinbase" false None None);
           PObj (mk_prov "metamask" true None None)]) None.

End Discovery.

(* ------------------------------------------------------------------------- *)
(** ** Rendering helpers and the submit button *)

Module View.

(** [s.slice(0, n)] for [n >= 0]. *)
Definition slice_prefix (s : string) (n : nat) : string := substring 0 n s.

(** [s.slice(-n)] for [n > 0]: the start [length - n] is clamped at 0. *)
Definition slice_suffix (s : string) (n : nat) : string :=
  substring (String.length s - n) n s.

(** [shortAddr(addr)] for a string or [null]. *)
Definition shortAddr (addr : option string) : string :=
  match addr with
  | Some a => if truthy addr then slice_prefix a 6 ++ "..." ++ slice_suffix a 4 else ""
  | None => ""
  end.

(** The values [shortHex] receives: a [bigint] (the event's root), a string
    (the event's [bytes32] nullifier), or [null]/[undefined]. *)
Inductive hexable := HBig (n : Z) | HStr (s : string) | HNullish.

(** [n.toString(16)] for a [bigint]. *)
Definition bigint_hex (n : Z) : string :=
  match n with
  | Z0 => "0"
  | Zpos p => HexString.Raw.of_pos p ""
  | Zneg p => "-" ++ HexString.Raw.of_pos p ""
  end.

Definition hex_falsy (v : hexable) : bool :=
  match v with
  | HBig n => Z.eqb n 0
  | HStr s => String.eqb s ""
  | HNullish => true
  end.

(** [const hex = typeof value === "bigint" ? "0x" + value.toString(16)
    : value.toString()] *)
Definition hex_text (value : hexable) : string :=
  match value with
  | HBig n => "0x" ++ bigint_hex n
  | HStr s => s
  | HNullish => ""
  end.

Definition shortHex (value : hexable) : string :=
  if hex_falsy value then "" else
  let hex := hex_text value in
  if (String.length hex <=? 14)%nat then hex
  else slice_prefix hex 8 ++ "..." ++ slice_suffix hex 6.

(** The [networkLabel] shown next to the network indicator. *)
Definition networkLabel (chainId : option Z) : string :=
  match chainId with
  | None => "Network not detected"
  | Some c =>
      if Z.eqb c 1 then "Ethereum Mainnet"
      else if Z.eqb c 11155111 then "Sepolia Testnet"
      else "ChainId " ++ dec c
  end.

(** The submit button: [disabled={loading || !account}] and its label. *)
Definition submit_disabled (u : App.ui) : bool :=
  App.loading u || negb (truthy (App.account u)).

Definition submit_label (u : App.ui) : string :=
  if App.loading u then "Submitting proof..."
  else if truthy (App.account u) then "Submit ZK Access Proof"
  else "Connect your wallet first".

(** Account and chain id are set together; an account comes with a signer
    and a provider. *)
Definition acct_inv (u : ui) : Prop :=
  (account u = None <-> chainId u = None) /\
  (account u <> None -> present (signer u) = true /\ provider u = true).

End View.
Import Discovery View.

(* ------------------------------------------------------------------------- *)
(** ** Proof automation *)

Ltac unfold_submit :=
  unfold submit_ok, handleProveAndConsume, proveAndConsume_body, try_catch_finally,
    fetch, json, toBig_at, toBig, map_m, bind, set, emit, ret, throw, lift, get_ui.

(** Destruct the innermost stuck scrutinee, looking through boolean
    connectives. *)
Ltac dest x :=
  lazymatch x with
  | negb ?y => dest y
  | orb ?y _ => dest y
  | andb ?y _ => dest y
  | present ?y => dest y
  | _ => destruct x eqn:?
  end.

Ltac simp :=
  cbn -[big_at big_of map_error dec to_js_string get_prop includes friendly_of
        err_to_string] in *.

(** Symbolic execution of a handler: reduce, split on the first stuck
    match, repeat. *)
Ltac crush_matches :=
  repeat (simp;
          match goal with
          | |- context [match ?x with _ => _ end] =>
              lazymatch x with
              | context [match _ with _ => _ end] => fail
              | _ => dest x
              end
          end);
  simp.

Ltac trace_eq :=
  first [ symmetry; apply app_nil_r | rewrite <- ?app_assoc; reflexivity ].

Ltac unfold_connect :=
  unfold connectWallet, try_catch, try_catch_finally, bind, set, emit, ret,
    throw, lift, get_ui.

Ltac unfold_load :=
  unfold loadContractState, try_catch, try_catch_finally, bind, set, emit, ret,
    throw, lift, get_ui.

(** Membership goals about the provider candidates. *)
Ltac reach_solve :=
  repeat match goal with
         | H : exists _, _ |- _ => destruct H as (? & ? & ?)
         | H : _ \/ _ |- _ => destruct H
         | H : False |- _ => contradiction
         | H : Some _ = Some _ |- _ => injection H as <-
         | H : PObj _ = PObj _ |- _ => injection H as ->
         | H : ?x = ?y |- _ => first [subst x | subst y]
         end;
  eauto 8; try discriminate; try congruence.

(* ------------------------------------------------------------------------- *)
(** ** Lemmas *)

Lemma app_self_nil {A} (l t : list A) : l = app l t -> t = [].
Proof. intros H. apply (app_inv_head l). rewrite app_nil_r. congruence. Qed.

Lemma firstn_app_firstn {A} (n : nat) (l m : list A) :
  firstn n (app l (firstn n m)) = firstn n (app l m).
Proof.
  rewrite !firstn_app, firstn_firstn. f_equal. f_equal. lia.
Qed.

Lemma fold_handler (ds : list Entry.delivery) (prev : list Entry.t) :
  (length prev <= 5)%nat ->
  fold_left (fun prev d => handler d prev) ds prev
  = firstn 5 (app (map Entry.of_delivery (rev ds)) prev).
Proof.
  revert prev. induction ds as [|d ds IH]; intros prev Hlen.
  - cbn [fold_left rev map app]. symmetry. apply firstn_all2. exact Hlen.
  - cbn [fold_left]. rewrite IH by apply firstn_le_length. unfold handler.
    rewrite firstn_app_firstn. cbn [rev]. rewrite map_app, <- app_assoc. reflexivity.
Qed.

Lemma feed_eq (ds : list Entry.delivery) :
  feed ds = firstn 5 (map Entry.of_delivery (rev ds)).
Proof.
  unfold feed. rewrite fold_handler by (cbn; lia). rewrite app_nil_r. reflexivity.
Qed.

Lemma includes_app_r (a b pat : string) :
  includes b pat = true -> includes (a ++ b) pat = true.
Proof.
  intros H. induction a as [|c a IH]; cbn [append].
  - exact H.
  - cbn [includes]. rewrite IH. apply orb_true_r.
Qed.

Lemma includes_nullifier_empty : includes "" NULLIFIER_USED = false.
Proof. reflexivity. Qed.

(** [String(e)] contains the message of the [Error]. *)
Lemma err_to_string_includes_message (e : jserr) :
  includes (e_message e) NULLIFIER_USED = true ->
  includes (err_to_string e) NULLIFIER_USED = true.
Proof.
  intros H. unfold err_to_string.
  destruct (String.eqb (e_name e) "") eqn:En; [exact H|].
  destruct (String.eqb (e_message e) "") eqn:Em.
  - apply String.eqb_eq in Em. rewrite Em in H. discriminate H.
  - apply includes_app_r. apply (includes_app_r ": " (e_message e)). exact H.
Qed.

(** Submitting a proof leaves the connection cells alone. *)
Lemma submit_frame (cfg : config) (env : submit_env) (w : world) :
  let u' := w_ui (fst (handleProveAndConsume cfg env w)) in
  signer u' = signer (w_ui w) /\ provider u' = provider (w_ui w) /\
  chainId u' = chainId (w_ui w) /\ networkOk u' = networkOk (w_ui w).
Proof.
  destruct w as [u tr0]. unfold_submit. crush_matches.
  all: repeat split; congruence.
Qed.

Lemma load_frame (cfg : config) (env : load_env) (w : world) :
  let u' := w_ui (fst (loadContractState cfg env w)) in
  signer u' = signer (w_ui w) /\ provider u' = provider (w_ui w) /\
  chainId u' = chainId (w_ui w) /\ networkOk u' = networkOk (w_ui w).
Proof.
  destruct w as [u tr0].
  unfold loadContractState, try_catch, try_catch_finally, bind, set, emit, ret,
    throw, lift, get_ui.
  crush_matches.
  all: repeat split; congruence.
Qed.

Lemma connect_inv (cfg : config) (ce : connect_env) (w : world) :
  conn_inv cfg (w_ui w) -> conn_inv cfg (w_ui (fst (connectWallet cfg ce w))).
Proof.
  destruct w as [u tr0]. unfold conn_inv.
  unfold connectWallet, try_catch, try_catch_finally, bind, set, emit, ret,
    throw, lift, get_ui.
  crush_matches.
  all: try exact (fun H => H).
  all: intros _; split; [ intros Hn | intros _; split; reflexivity ].
  all: try discriminate Hn.
  all: match goal with H : (_ =? _)%Z = true |- _ => apply Z.eqb_eq in H; congruence end.
Qed.

Lemma step_inv (cfg : config) (w : world) (a : action) :
  conn_inv cfg (w_ui w) -> conn_inv cfg (w_ui (step cfg w a)).
Proof.
  intros Hinv. destruct a as [ce|le|d|se]; cbn [step].
  - apply connect_inv. exact Hinv.
  - destruct (load_frame cfg le w) as (Hs & Hp & Hc & Hn).
    unfold conn_inv in *. rewrite Hs, Hp, Hc, Hn. exact Hinv.
  - destruct (subscribed cfg (w_ui w)); [|exact Hinv].
    unfold conn_inv in *. destruct w as [u tr0]. cbn. exact Hinv.
  - destruct (submit_frame cfg se w) as (Hs & Hp & Hc & Hn).
    unfold conn_inv in *. rewrite Hs, Hp, Hc, Hn. exact Hinv.
Qed.

Lemma run_inv (cfg : config) (acts : list action) :
  conn_inv cfg (w_ui (run cfg acts)).
Proof.
  unfold run.
  assert (H0 : conn_inv cfg (w_ui world_init)).
  { unfold conn_inv. cbn. split; [discriminate | intros H; contradiction H; reflexivity]. }
  revert H0. generalize world_init as w.
  induction acts as [|a acts IH]; intros w Hw; cbn [fold_left].
  - exact Hw.
  - apply IH. apply step_inv. exact Hw.
Qed.

(* ------------------------------------------------------------------------- *)
(** ** Proof forwarding ([handleProveAndConsume]) *)

(** C1 (counterexample): the [pi_b] pairs are not forwarded as they are:
    with [pi_b = [["3","4"],["5","6"]]] the contract receives
    [_pB = [[4,3],[6,5]]], so [_pB[0][0] = 4] while [pi_b[0][0] = 3]. *)
Lemma submit_swaps_pi_b :
  big_at ex_proof [KProp "pi_b"; KIdx 0; KIdx 0] = inl 3 /\
  w_trace (fst (handleProveAndConsume ex_cfg (ex_submit ex_public (Sent "0xh" (Mined 1))) ex_world))
  = [EFetch "/balance_proof.json"; EFetch "/balance_public.json";
     ECall "proveAndConsume"
       [VArr [VUint 1; VUint 2];
        VArr [VArr [VUint 4; VUint 3]; VArr [VUint 6; VUint 5]];
        VArr [VUint 7; VUint 8];
        VArr [VUint 9; VUint 10]]].
Proof. split; vm_compute; reflexivity. Qed.

(** C1 (amended): whenever a submission calls [proveAndConsume], both files
    were loaded as JSON, the public signals are a two-element array, and
    the calldata is [_pA[i] = pi_a[i]], [_pC[i] = pi_c[i]],
    [_pubSignals[i] = public[i]] (each through [BigInt]) while each inner
    pair of [pi_b] is swapped: [_pB[i][j] = pi_b[i][1-j]]. *)
Theorem submit_forwards_proof (cfg : config) (env : submit_env) (w : world)
    (tr : list effect) (args : list abi_val) :
  w_trace (fst (handleProveAndConsume cfg env w)) = app (w_trace w) tr ->
  In (ECall "proveAndConsume" args) tr ->
  exists p x0 x1 a0 a1 b00 b01 b10 b11 c0 c1 s0 s1,
    json_of (proof_fetch env) = Some p /\
    json_of (public_fetch env) = Some (JArr [x0; x1]) /\
    big_at p [KProp "pi_a"; KIdx 0] = inl a0 /\
    big_at p [KProp "pi_a"; KIdx 1] = inl a1 /\
    big_at p [KProp "pi_b"; KIdx 0; KIdx 0] = inl b00 /\
    big_at p [KProp "pi_b"; KIdx 0; KIdx 1] = inl b01 /\
    big_at p [KProp "pi_b"; KIdx 1; KIdx 0] = inl b10 /\
    big_at p [KProp "pi_b"; KIdx 1; KIdx 1] = inl b11 /\
    big_at p [KProp "pi_c"; KIdx 0] = inl c0 /\
    big_at p [KProp "pi_c"; KIdx 1] = inl c1 /\
    big_of x0 = inl s0 /\ big_of x1 = inl s1 /\
    args = [VArr [VUint a0; VUint a1];
            VArr [VArr [VUint b01; VUint b00]; VArr [VUint b11; VUint b10]];
            VArr [VUint c0; VUint c1];
            VArr [VUint s0; VUint s1]].
Proof.
  destruct w as [u tr0]. unfold_submit. crush_matches.
  all: intros Htr Hin; rewrite <- ?app_assoc in Htr; cbn in Htr;
       first [ apply app_inv_head in Htr | apply app_self_nil in Htr ];
       subst tr; cbn in Hin.
  all: repeat match goal with H : _ \/ _ |- _ => destruct H end;
       try contradiction; try discriminate.
  all: match goal with H : ECall _ _ = ECall _ _ |- _ => injection H as <- end.
  all: unfold json_of.
  all: repeat match goal with H : ?x = _ |- context [?x] => rewrite H end.
  all: do 13 eexists; repeat split; eassumption.
Qed.

Lemma submit_forwards_proof_witness :
  (w_trace (fst (handleProveAndConsume ex_cfg (ex_submit ex_public (Sent "0xh" (Mined 1))) ex_world))
   = app (w_trace ex_world)
       [EFetch "/balance_proof.json"; EFetch "/balance_public.json";
        ECall "proveAndConsume"
          [VArr [VUint 1; VUint 2];
           VArr [VArr [VUint 4; VUint 3]; VArr [VUint 6; VUint 5]];
           VArr [VUint 7; VUint 8];
           VArr [VUint 9; VUint 10]]]) /\
  exists p x0 x1 a0 a1 b00 b01 b10 b11 c0 c1 s0 s1,
    json_of (proof_fetch (ex_submit ex_public (Sent "0xh" (Mined 1)))) = Some p /\
    json_of (public_fetch (ex_submit ex_public (Sent "0xh" (Mined 1)))) = Some (JArr [x0; x1]) /\
    big_at p [KProp "pi_a"; KIdx 0] = inl a0 /\
    big_at p [KProp "pi_a"; KIdx 1] = inl a1 /\
    big_at p [KProp "pi_b"; KIdx 0; KIdx 0] = inl b00 /\
    big_at p [KProp "pi_b"; KIdx 0; KIdx 1] = inl b01 /\
    big_at p [KProp "pi_b"; KIdx 1; KIdx 0] = inl b10 /\
    big_at p [KProp "pi_b"; KIdx 1; KIdx 1] = inl b11 /\
    big_at p [KProp "pi_c"; KIdx 0] = inl c0 /\
    big_at p [KProp "pi_c"; KIdx 1] = inl c1 /\
    big_of x0 = inl s0 /\ big_of x1 = inl s1 /\
    [VArr [VUint 1; VUint 2];
     VArr [VArr [VUint 4; VUint 3]; VArr [VUint 6; VUint 5]];
     VArr [VUint 7; VUint 8];
     VArr [VUint 9; VUint 10]]
    = [VArr [VUint a0; VUint a1];
       VArr [VArr [VUint b01; VUint b00]; VArr [VUint b11; VUint b10]];
       VArr [VUint c0; VUint c1];
       VArr [VUint s0; VUint s1]].
Proof.
  split.
  - vm_compute. reflexivity.
  - apply (submit_forwards_proof ex_cfg (ex_submit ex_public (Sent "0xh" (Mined 1))) ex_world
             [EFetch "/balance_proof.json"; EFetch "/balance_public.json";
              ECall "proveAndConsume"
                [VArr [VUint 1; VUint 2];
                 VArr [VArr [VUint 4; VUint 3]; VArr [VUint 6; VUint 5]];
                 VArr [VUint 7; VUint 8];
                 VArr [VUint 9; VUint 10]]]).
    + vm_compute. reflexivity.
    + right. right. left. reflexivity.
Defined.

(* ------------------------------------------------------------------------- *)
(** ** The AccessGranted feed *)

(** C2 (counterexample): a connected page that receives the same
    [AccessGranted] event twice shows it twice. *)
Lemma feed_shows_redelivery_twice :
  accessEvents (w_ui (run ex_cfg [Connect (ex_connect "0x1");
                                  Deliver ex_delivery; Deliver ex_delivery]))
  = [Entry.of_delivery ex_delivery; Entry.of_delivery ex_delivery].
Proof. vm_compute. reflexivity. Qed.

(** C2 (amended): the feed is not de-duplicated: each delivery prepends a
    new entry to the feed and the feed keeps the first 5 entries, so the
    feed is always the entries of the 5 most recent deliveries, newest
    first, and an event delivered twice in a row, after any history,
    occupies the two newest slots. *)
Theorem feed_no_dedup (ds : list Entry.delivery) (d : Entry.delivery) :
  feed (app ds [d]) = firstn 5 (Entry.of_delivery d :: feed ds) /\
  feed ds = firstn 5 (map Entry.of_delivery (rev ds)) /\
  firstn 2 (feed (app ds [d; d])) = [Entry.of_delivery d; Entry.of_delivery d].
Proof.
  split; [|split].
  - unfold feed. rewrite fold_left_app. reflexivity.
  - apply feed_eq.
  - rewrite feed_eq, rev_app_distr. reflexivity.
Qed.

(** C3: after any sequence of deliveries the feed is the 5 most recent
    entries, newest first; it never holds more than 5, and its head is the
    entry of the last delivery. *)
Theorem feed_keeps_last_five (ds : list Entry.delivery) :
  feed ds = firstn 5 (map Entry.of_delivery (rev ds)) /\
  (length (feed ds) <= 5)%nat /\
  (forall ds' d, ds = app ds' [d] -> hd_error (feed ds) = Some (Entry.of_delivery d)).
Proof.
  split; [apply feed_eq|split].
  - rewrite feed_eq. apply firstn_le_length.
  - intros ds' d ->. rewrite feed_eq, rev_app_distr. reflexivity.
Qed.

(* ------------------------------------------------------------------------- *)
(** ** Submission: effects, gating, status *)

(** C4: a submission fetches [/balance_proof.json] then
    [/balance_public.json] and makes at most one contract call, to
    [proveAndConsume] with calldata of shape [uint256[2]],
    [uint256[2][2]], [uint256[2]], [uint256[2]]; a submission that
    completes performed exactly these three effects. *)
Theorem submit_fetches_two_files_one_call (cfg : config) (env : submit_env) (w : world) :
  exists tr,
    w_trace (fst (handleProveAndConsume cfg env w)) = app (w_trace w) tr /\
    (tr = [] \/ tr = [EFetch "/balance_proof.json"] \/
     tr = [EFetch "/balance_proof.json"; EFetch "/balance_public.json"] \/
     exists args, calldata_shape args = true /\
       tr = [EFetch "/balance_proof.json"; EFetch "/balance_public.json";
             ECall "proveAndConsume" args]) /\
    (submit_ok cfg env w = true ->
     exists args, calldata_shape args = true /\
       tr = [EFetch "/balance_proof.json"; EFetch "/balance_public.json";
             ECall "proveAndConsume" args]).
Proof.
  destruct w as [u tr0]. unfold_submit. crush_matches.
  all: eexists; split; [trace_eq | ].
  all: split; [ first [ left; reflexivity | right; left; reflexivity
                      | right; right; left; reflexivity
                      | right; right; right; eexists; split; [ idtac | reflexivity ];
                        reflexivity ] | ].
  all: intros; first [ discriminate | eexists; split; [ idtac | reflexivity ]; reflexivity ].
Qed.

(** C5: on every reachable page whose recorded chain id is not the
    expected one, a submission fails with the wrong-network error before
    any fetch or contract call. *)
Theorem wrong_chain_blocks_submit (cfg : config) (acts : list action)
    (env : submit_env) (c : Z)
    (Hc : chainId (w_ui (run cfg acts)) = Some c)
    (Hne : c <> EXPECTED_CHAIN_ID cfg) :
  let w := run cfg acts in
  let w' := fst (handleProveAndConsume cfg env w) in
  w_trace w' = w_trace w /\
  error (w_ui w') = Some "Wrong network (must be Ethereum mainnet for now)." /\
  submit_ok cfg env w = false.
Proof.
  cbv zeta.
  destruct (run_inv cfg acts) as [Hnet Hconn].
  destruct (run cfg acts) as [u tr0]. cbn [w_ui] in *.
  destruct (Hconn ltac:(congruence)) as [Hs Hp].
  assert (Hn : networkOk u = false).
  { destruct (networkOk u); [|reflexivity]. exfalso. apply Hne. specialize (Hnet eq_refl). congruence. }
  unfold_submit. simp. destruct (signer u); [|discriminate]. rewrite Hp, Hn. simp.
  split; [reflexivity | split; reflexivity].
Qed.

Lemma wrong_chain_blocks_submit_witness :
  chainId (w_ui (run ex_cfg [Connect (ex_connect "0xaa36a7")])) = Some 11155111 /\
  11155111 <> EXPECTED_CHAIN_ID ex_cfg /\
  (let w := run ex_cfg [Connect (ex_connect "0xaa36a7")] in
   let w' := fst (handleProveAndConsume ex_cfg (ex_submit ex_public (Sent "0xh" (Mined 1))) w) in
   w_trace w' = w_trace w /\
   error (w_ui w') = Some "Wrong network (must be Ethereum mainnet for now)." /\
   submit_ok ex_cfg (ex_submit ex_public (Sent "0xh" (Mined 1))) w = false).
Proof.
  split; [vm_compute; reflexivity|].
  split; [cbn; lia|].
  apply (wrong_chain_blocks_submit ex_cfg [Connect (ex_connect "0xaa36a7")]
           (ex_submit ex_public (Sent "0xh" (Mined 1))) 11155111).
  - vm_compute. reflexivity.
  - cbn. lia.
Defined.

(** C7: a submission that completes stores the hash of the sent
    transaction and reports success with the confirmation block; a
    submission that fails reports failure. *)
Theorem submit_reports_status (cfg : config) (env : submit_env) (w : world) :
  let w' := fst (handleProveAndConsume cfg env w) in
  (submit_ok cfg env w = true ->
   exists hash n, send env = Sent hash (Mined n) /\
     txHash (w_ui w') = Some hash /\
     status (w_ui w') = "Access granted! Block #" ++ dec n) /\
  (submit_ok cfg env w = false ->
   status (w_ui w') = "Proof / transaction failed.").
Proof.
  cbv zeta. destruct w as [u tr0]. unfold_submit. crush_matches.
  all: split; intros Hok; try discriminate Hok; try reflexivity.
  do 2 eexists; split; [reflexivity | split; reflexivity].
Qed.

(** C9: whatever happens during a submission, [loading] is [false] when it
    completes. *)
Theorem submit_clears_loading (cfg : config) (env : submit_env) (w : world) :
  loading (w_ui (fst (handleProveAndConsume cfg env w))) = false.
Proof.
  unfold handleProveAndConsume, try_catch_finally, bind, set.
  destruct (proveAndConsume_body cfg env w) as [w1 [a|e]]; reflexivity.
Qed.

(** C8 (failing input): when [/balance_public.json] holds [null], reading
    [pub.length] for the message throws a [TypeError]; the page shows that
    error instead of the message about the expected shape. *)
Lemma public_null_shows_type_error :
  let w' := fst (handleProveAndConsume ex_cfg (ex_submit JNull (Sent "0xh" (Mined 1))) ex_world) in
  error (w_ui w') = Some "Cannot read properties of null (reading 'length')" /\
  includes "Cannot read properties of null (reading 'length')" "must contain 2 values" = false /\
  txHash (w_ui w') = None /\
  w_trace w' = [EFetch "/balance_proof.json"; EFetch "/balance_public.json"].
Proof. vm_compute. repeat split. Qed.

(** C10 (counterexample): an ethers error whose [reason] is the revert
    string "Nullifier already used" but whose message and string form do
    not contain it is still shown as the friendly message, not through its
    reason, short message or message. *)
Lemma nullifier_in_reason_only_is_mapped :
  error (w_ui (fst (handleProveAndConsume ex_cfg (ex_submit ex_public (SendReject ex_revert)) ex_world)))
    = Some FRIENDLY_USED /\
  includes (e_message ex_revert) NULLIFIER_USED = false /\
  includes (err_to_string ex_revert) NULLIFIER_USED = false /\
  e_reason ex_revert = Some NULLIFIER_USED /\ e_short ex_revert = None /\
  FRIENDLY_USED <> NULLIFIER_USED /\ FRIENDLY_USED <> e_message ex_revert.
Proof.
  split; [vm_compute; reflexivity|].
  split; [vm_compute; reflexivity|].
  split; [vm_compute; reflexivity|].
  split; [reflexivity|]. split; [reflexivity|].
  split; unfold FRIENDLY_USED, NULLIFIER_USED; cbn; discriminate.
Qed.

(** C10 (amended): for an error [e] thrown during a submission, the page
    shows the friendly message when [e]'s message contains
    "Nullifier already used", and more generally when
    [e.reason || e.shortMessage || e.message || String(e)] or [String(e)]
    contains it; otherwise it shows
    [e.reason || e.shortMessage || e.message || String(e)]. *)
Theorem submit_error_mapping (cfg : config) (env : submit_env) (w : world) (e : jserr)
    (Hthrow : snd (proveAndConsume_body cfg env w) = inr e) :
  let shown := error (w_ui (fst (handleProveAndConsume cfg env w))) in
  (includes (e_message e) NULLIFIER_USED = true -> shown = Some FRIENDLY_USED) /\
  (includes (friendly_of e) NULLIFIER_USED = true \/
   includes (err_to_string e) NULLIFIER_USED = true -> shown = Some FRIENDLY_USED) /\
  (includes (friendly_of e) NULLIFIER_USED = false ->
   includes (err_to_string e) NULLIFIER_USED = false -> shown = Some (friendly_of e)).
Proof.
  cbv zeta. unfold handleProveAndConsume, try_catch_finally, bind, set.
  destruct (proveAndConsume_body cfg env w) as [w1 r]. cbn in Hthrow. subst r.
  cbn. unfold map_error.
  split; [|split].
  - intros Hm. apply err_to_string_includes_message in Hm. rewrite Hm, orb_true_r. reflexivity.
  - intros [H|H]; rewrite H; [reflexivity | rewrite orb_true_r; reflexivity].
  - intros H1 H2. rewrite H1, H2. reflexivity.
Qed.

Lemma submit_error_mapping_witness :
  snd (proveAndConsume_body ex_cfg (ex_submit ex_public (SendReject ex_revert)) ex_world) = inr ex_revert /\
  (let shown := error (w_ui (fst (handleProveAndConsume ex_cfg (ex_submit ex_public (SendReject ex_revert)) ex_world))) in
   (includes (e_message ex_revert) NULLIFIER_USED = true -> shown = Some FRIENDLY_USED) /\
   (includes (friendly_of ex_revert) NULLIFIER_USED = true \/
    includes (err_to_string ex_revert) NULLIFIER_USED = true -> shown = Some FRIENDLY_USED) /\
   (includes (friendly_of ex_revert) NULLIFIER_USED = false ->
    includes (err_to_string ex_revert) NULLIFIER_USED = false -> shown = Some (friendly_of ex_revert))).
Proof.
  split; [vm_compute; reflexivity|].
  apply submit_error_mapping. vm_compute. reflexivity.
Defined.

(* ------------------------------------------------------------------------- *)
(** ** Reading on-chain state *)

(** C6: with a signer and a contract address, reading the state calls
    [currentRoot] and then [requiredThreshold] and no other contract
    function; when both return, exactly these two calls were made and the
    returned values are stored as the root and the threshold. *)
Theorem load_reads_root_and_threshold (cfg : config) (env : load_env) (w : world)
    (Hs : present (signer (w_ui w)) = true)
    (Ha : truthy (BALANCE_ACCESS_ADDRESS cfg) = true) :
  let w' := fst (loadContractState cfg env w) in
  (exists tr, w_trace w' = app (w_trace w) tr /\
     (tr = [ECall "currentRoot" []] \/
      tr = [ECall "currentRoot" []; ECall "requiredThreshold" []])) /\
  (forall r t, currentRoot_res env = inl r -> requiredThreshold_res env = inl t ->
     w_trace w' = app (w_trace w) [ECall "currentRoot" []; ECall "requiredThreshold" []] /\
     currentRoot (w_ui w') = Some r /\ threshold (w_ui w') = Some t).
Proof.
  cbv zeta. destruct w as [u tr0]. cbn [w_ui] in Hs.
  unfold loadContractState, try_catch, try_catch_finally, bind, set, emit, ret,
    throw, lift, get_ui.
  simp. destruct (signer u); [|discriminate]. rewrite Ha. simp.
  destruct (currentRoot_res env) as [r0|e0]; simp;
    [destruct (requiredThreshold_res env) as [t0|e1]; simp|].
  - split.
    + eexists; split; [rewrite <- app_assoc; reflexivity | right; reflexivity].
    + intros r t Hr Ht. injection Hr as <-. injection Ht as <-.
      rewrite <- app_assoc. split; [reflexivity | split; reflexivity].
  - split.
    + eexists; split; [rewrite <- app_assoc; reflexivity | right; reflexivity].
    + intros r t Hr Ht. discriminate Ht.
  - split.
    + eexists; split; [reflexivity | left; reflexivity].
    + intros r t Hr Ht. discriminate Hr.
Qed.

Lemma load_reads_root_and_threshold_witness :
  present (signer (w_ui ex_world)) = true /\
  truthy (BALANCE_ACCESS_ADDRESS ex_cfg) = true /\
  (let w' := fst (loadContractState ex_cfg (mk_load_env (inl 5) (inl 100)) ex_world) in
   (exists tr, w_trace w' = app (w_trace ex_world) tr /\
      (tr = [ECall "currentRoot" []] \/
       tr = [ECall "currentRoot" []; ECall "requiredThreshold" []])) /\
   (forall r t, currentRoot_res (mk_load_env (inl 5) (inl 100)) = inl r ->
      requiredThreshold_res (mk_load_env (inl 5) (inl 100)) = inl t ->
      w_trace w' = app (w_trace ex_world) [ECall "currentRoot" []; ECall "requiredThreshold" []] /\
      currentRoot (w_ui w') = Some r /\ threshold (w_ui w') = Some t)).
Proof.
  split; [vm_compute; reflexivity|].
  split; [vm_compute; reflexivity|].
  apply load_reads_root_and_threshold; vm_compute; reflexivity.
Defined.

(* ------------------------------------------------------------------------- *)
(** ** Further properties of the page *)

(** *** Strings *)

Lemma list_ascii_app (a b : string) :
  list_ascii_of_string (a ++ b) = app (list_ascii_of_string a) (list_ascii_of_string b).
Proof. induction a as [|c a IH]; cbn; [reflexivity | rewrite IH; reflexivity]. Qed.

Lemma length_list_ascii (s : string) :
  length (list_ascii_of_string s) = String.length s.
Proof. induction s as [|c s IH]; cbn; [reflexivity | rewrite IH; reflexivity]. Qed.

Lemma substring_list (n m : nat) (s : string) :
  substring n m s = string_of_list_ascii (firstn m (skipn n (list_ascii_of_string s))).
Proof.
  revert n m. induction s as [|c s IH]; intros n m.
  - destruct n, m; reflexivity.
  - destruct n as [|n].
    + destruct m as [|m]; [reflexivity|]. cbn. f_equal.
      rewrite IH. reflexivity.
    + cbn. apply IH.
Qed.

Lemma string_list_inj (a b : string) :
  list_ascii_of_string a = list_ascii_of_string b -> a = b.
Proof.
  intros H. rewrite <- (string_of_list_ascii_of_string a), <- (string_of_list_ascii_of_string b).
  f_equal. exact H.
Qed.

(** The two slices of an abbreviation are a prefix and a suffix of [s]. *)
Lemma slices_split (s : string) (k j : nat) :
  (k + j <= String.length s)%nat ->
  exists m, s = slice_prefix s k ++ m ++ slice_suffix s j /\
    String.length (slice_prefix s k) = k /\ String.length (slice_suffix s j) = j.
Proof.
  intros Hle. unfold slice_prefix, slice_suffix. rewrite !substring_list.
  rewrite <- length_list_ascii in *. set (L := list_ascii_of_string s) in *.
  exists (string_of_list_ascii (firstn (length L - k - j) (skipn k L))).
  rewrite <- !length_list_ascii, !list_ascii_of_string_of_list_ascii.
  rewrite !length_firstn, !length_skipn.
  split; [|split; lia].
  apply string_list_inj. rewrite !list_ascii_app, !list_ascii_of_string_of_list_ascii.
  rewrite skipn_0.
  rewrite (firstn_all2 (n := j)) by (rewrite length_skipn; lia).
  replace (length L - j)%nat with (length L - k - j + k)%nat by lia.
  rewrite <- skipn_skipn, firstn_skipn, firstn_skipn. reflexivity.
Qed.

Lemma string_length_app (a b : string) : String.length (a ++ b) = (String.length a + String.length b)%nat.
Proof. induction a as [|c a IH]; cbn; [reflexivity | rewrite IH; reflexivity]. Qed.

Lemma hex_text_nonempty (v : hexable) : hex_falsy v = false -> hex_text v <> "".
Proof.
  destruct v as [n|s|]; cbn; intros H; try discriminate.
  destruct s; [discriminate | discriminate].
Qed.

Lemma includes_absent_head (s p : string) (c : ascii) :
  ~ In c (list_ascii_of_string s) -> includes s (String c p) = false.
Proof.
  induction s as [|a s IH]; intros Hn; [reflexivity|].
  cbn [includes list_ascii_of_string In] in *.
  rewrite IH by tauto. rewrite orb_false_r. cbn [String.prefix].
  destruct (ascii_dec c a) as [->|_]; [exfalso; tauto | reflexivity].
Qed.

Lemma dec_no_N (z : Z) : ~ In "N"%char (list_ascii_of_string (dec z)).
Proof.
  assert (He : forall u, ~ In "N"%char (list_ascii_of_string (NilEmpty.string_of_uint u))).
  { induction u; cbn [NilEmpty.string_of_uint list_ascii_of_string In]; intros H;
    repeat destruct H as [H|H]; try discriminate H; auto. }
  assert (Hu : forall u, ~ In "N"%char (list_ascii_of_string (NilZero.string_of_uint u))).
  { intros u. unfold NilZero.string_of_uint. destruct u; try apply He.
    cbn. intros [H|H]; [discriminate H | exact H]. }
  unfold dec, NilZero.string_of_int.
  destruct (Z.to_int z) as [u|u]; [apply Hu|].
  cbn [list_ascii_of_string]. intros [H|H]; [discriminate H | exact (Hu u H)].
Qed.

(** The shape message carries no capital N, so it never contains
    "Nullifier already used". *)
Lemma map_error_shape (n : Z) :
  map_error (new_error (PUBLIC_SHAPE_MSG ++ dec n)) = PUBLIC_SHAPE_MSG ++ dec n.
Proof.
  assert (Hm : ~ In "N"%char (list_ascii_of_string (PUBLIC_SHAPE_MSG ++ dec n))).
  { rewrite list_ascii_app. intros H. apply in_app_or in H. destruct H as [H|H].
    - vm_compute in H. repeat destruct H as [H|H]; try discriminate H; exact H.
    - exact (dec_no_N n H). }
  unfold map_error, friendly_of, first_truthy, err_to_string. cbn [e_reason e_short e_message e_name new_error].
  destruct (String.eqb (PUBLIC_SHAPE_MSG ++ dec n) "") eqn:E; [discriminate E|].
  cbn [String.eqb]. unfold NULLIFIER_USED.
  rewrite !includes_absent_head; [reflexivity| |exact Hm].
  intros H. rewrite !list_ascii_app in H. cbn in H.
  repeat destruct H as [H|H]; try discriminate H. exact (dec_no_N n H).
Qed.

(** *** Provider discovery *)

Lemma in_fold_add_truthy (l : list pentry) (c : list eprov) (q : eprov) :
  In q (fold_left add_truthy l c) <-> In q c \/ In (PObj q) l.
Proof.
  revert c. induction l as [|v l IH]; intros c; cbn [fold_left].
  - cbn. tauto.
  - rewrite IH. destruct v as [| |p]; cbn [add_truthy In].
    + split; [intros [H|H]; auto | intros [H|[H|H]]; auto; discriminate].
    + split; [intros [H|H]; auto | intros [H|[H|H]]; auto; discriminate].
    + rewrite in_app_iff. cbn [In]. split.
      * intros [[H|[H|[]]]|H]; auto. subst. auto.
      * intros [H|[H|H]]; auto. injection H as ->. auto.
Qed.

Lemma in_visit_obj (c : list eprov) (p q : eprov) :
  exists c', visit c (PObj p) = inl c' /\ (In q c' <-> In q c \/ reached_from p q).
Proof.
  eexists; split; [reflexivity|]. unfold reached_from.
  destruct (prov_providers p) as [l1|] eqn:E1, (prov_providerMap p) as [l2|] eqn:E2;
    rewrite ?in_fold_add_truthy; cbn [add_truthy]; rewrite in_app_iff; cbn [In].
  all: split; intros H; reach_solve.
Qed.

Lemma in_visit_all (ps : list pentry) (c all : list eprov) (q : eprov) :
  visit_all c ps = inl all ->
  (In q all <-> In q c \/ exists p, In (PObj p) ps /\ reached_from p q).
Proof.
  revert c. induction ps as [|x ps IH]; intros c Hv; cbn [visit_all] in Hv.
  - injection Hv as <-. split; [auto | intros [H|(p & [] & _)]; exact H].
  - destruct x as [| |p]; [discriminate Hv | discriminate Hv |].
    destruct (in_visit_obj c p q) as (c' & Hc' & Hin).
    rewrite Hc' in Hv. rewrite (IH c' Hv), Hin. cbn [In].
    split.
    + intros [[H|H]|(p' & H1 & H2)]; eauto.
    + intros [H|(p' & [H1|H1] & H2)]; [auto | injection H1 as ->; auto | eauto].
Qed.

Lemma visit_all_throws (ps : list pentry) (c : list eprov) :
  (exists err, visit_all c ps = inr err) <-> In PNull ps \/ In PUndef ps.
Proof.
  revert c. induction ps as [|x ps IH]; intros c; cbn [visit_all In].
  - split; [intros (err & H); discriminate H | intros [[]|[]]].
  - destruct x as [| |p].
    + split; [auto | intros _; eexists; reflexivity].
    + split; [auto | intros _; eexists; reflexivity].
    + destruct (in_visit_obj c p p) as (c' & Hc' & _). rewrite Hc', IH.
      split; intros [H|H]; auto; destruct H as [H|H]; try discriminate; auto.
Qed.

Lemma visit_all_error (ps : list pentry) (c : list eprov) (err : jserr) :
  visit_all c ps = inr err ->
  exists pre x post, ps = app pre (x :: post) /\
    (forall y, In y pre -> exists p, y = PObj p) /\
    ((x = PNull /\ err = read_error "null" "providers") \/
     (x = PUndef /\ err = read_error "undefined" "providers")).
Proof.
  revert c. induction ps as [|x ps IH]; intros c Hv; cbn [visit_all] in Hv; [discriminate Hv|].
  destruct x as [| |p].
  - injection Hv as <-. exists [], PNull, ps. split; [reflexivity|].
    split; [intros y []|]. left. split; reflexivity.
  - injection Hv as <-. exists [], PUndef, ps. split; [reflexivity|].
    split; [intros y []|]. right. split; reflexivity.
  - destruct (in_visit_obj c p p) as (c' & Hc' & _). rewrite Hc' in Hv.
    destruct (IH c' Hv) as (pre & x & post & -> & Hpre & Hx).
    exists (PObj p :: pre), x, post. split; [reflexivity|]. split; [|exact Hx].
    intros y [<-|Hy]; eauto.
Qed.

Lemma fold_add_prefix (l : list pentry) (c : list eprov) :
  exists t, fold_left add_truthy l c = app c t.
Proof.
  revert c. induction l as [|v l IH]; intros c; cbn [fold_left].
  - exists []. symmetry. apply app_nil_r.
  - destruct (IH (add_truthy c v)) as (t & ->).
    destruct v as [| |p]; cbn [add_truthy]; [eauto | eauto |].
    exists (p :: t). rewrite <- app_assoc. reflexivity.
Qed.

Lemma visit_all_prefix (ps : list pentry) (c all : list eprov) :
  visit_all c ps = inl all -> exists t, all = app c t.
Proof.
  revert c. induction ps as [|x ps IH]; intros c Hv; cbn [visit_all] in Hv.
  - injection Hv as <-. exists []. symmetry. apply app_nil_r.
  - destruct x as [| |p]; [discriminate Hv | discriminate Hv |].
    cbn [visit add_truthy] in Hv.
    match type of Hv with visit_all ?c' _ = _ => assert (Hp : exists t, c' = app c t) end.
    { destruct (prov_providers p) as [l1|], (prov_providerMap p) as [l2|].
      all: repeat match goal with
                  | |- context [fold_left add_truthy ?l ?c0] =>
                      lazymatch c0 with
                      | context [fold_left _ _ _] => fail
                      | _ => let t' := fresh "t" in
                             destruct (fold_add_prefix l c0) as (t' & ->)
                      end
                  end.
      all: rewrite <- ?app_assoc; eauto. }
    destruct Hp as (t1 & Ht1). rewrite Ht1 in Hv.
    destruct (IH _ Hv) as (t2 & ->). rewrite <- app_assoc. eauto.
Qed.

Lemma candidates_head (e : eprov) (all : list eprov) :
  candidates e = inl all -> exists t, all = e :: t.
Proof.
  unfold candidates. destruct (prov_providers e) as [ps|].
  - intros H. destruct (visit_all_prefix ps [e] all H) as (t & ->). exists t. reflexivity.
  - intros H. injection H as <-. eauto.
Qed.

Lemma find_first {A} (f : A -> bool) (l : list A) (x : A) :
  find f l = Some x ->
  exists pre post, l = app pre (x :: post) /\ f x = true /\ (forall y, In y pre -> f y = false).
Proof.
  induction l as [|a l IH]; cbn [find]; [discriminate|].
  destruct (f a) eqn:Ea.
  - intros H. injection H as <-. exists [], l. split; [reflexivity|]. split; [exact Ea | intros y []].
  - intros H. destruct (IH H) as (pre & post & -> & Hx & Hpre).
    exists (a :: pre), post. split; [reflexivity|]. split; [exact Hx|].
    intros y [<-|Hy]; auto.
Qed.

(** *** Reachable connection state *)

Lemma submit_frame_account (cfg : config) (env : submit_env) (w : world) :
  let u' := w_ui (fst (handleProveAndConsume cfg env w)) in
  account u' = account (w_ui w) /\ signer u' = signer (w_ui w) /\
  provider u' = provider (w_ui w) /\ chainId u' = chainId (w_ui w).
Proof.
  destruct w as [u tr0]. unfold_submit. crush_matches.
  all: repeat split; congruence.
Qed.

Lemma load_frame_account (cfg : config) (env : load_env) (w : world) :
  let u' := w_ui (fst (loadContractState cfg env w)) in
  account u' = account (w_ui w) /\ signer u' = signer (w_ui w) /\
  provider u' = provider (w_ui w) /\ chainId u' = chainId (w_ui w).
Proof.
  destruct w as [u tr0]. unfold_load. crush_matches.
  all: repeat split; congruence.
Qed.

Lemma connect_acct_inv (cfg : config) (ce : connect_env) (w : world) :
  acct_inv (w_ui w) -> acct_inv (w_ui (fst (connectWallet cfg ce w))).
Proof.
  destruct w as [u tr0]. unfold acct_inv.
  unfold connectWallet, try_catch, try_catch_finally, bind, set, emit, ret,
    throw, lift, get_ui.
  crush_matches.
  all: try exact (fun H => H).
  all: intros _; split; [split; discriminate | intros _; split; reflexivity].
Qed.

Lemma run_acct_inv (cfg : config) (acts : list action) :
  acct_inv (w_ui (run cfg acts)).
Proof.
  unfold run.
  assert (H0 : acct_inv (w_ui world_init)).
  { unfold acct_inv. cbn. split; [tauto | intros H; contradiction H; reflexivity]. }
  revert H0. generalize world_init as w.
  induction acts as [|a acts IH]; intros w Hw; cbn [fold_left]; [exact Hw|].
  apply IH. destruct a as [ce|le|d|se]; cbn [step].
  - apply connect_acct_inv. exact Hw.
  - destruct (load_frame_account cfg le w) as (Ha & Hs & Hp & Hc).
    unfold acct_inv in *. rewrite Ha, Hs, Hp, Hc. exact Hw.
  - destruct (subscribed cfg (w_ui w)); [|exact Hw].
    destruct w as [u tr0]. exact Hw.
  - destruct (submit_frame_account cfg se w) as (Ha & Hs & Hp & Hc).
    unfold acct_inv in *. rewrite Ha, Hs, Hp, Hc. exact Hw.
Qed.

(* ------------------------------------------------------------------------- *)
(** ** Provider discovery ([getEthereumProvider]) *)

(** X1: [getEthereumProvider] throws exactly when
    [window.ethereum.providers] is an array with a [null] or [undefined]
    element; the error is then the [TypeError] "Cannot read properties of
    null (reading 'providers')" (or of undefined) raised at the first such
    element. When every element of [providers] is an object, discovery
    returns a provider, whatever [null] or [undefined] entries sit one
    level deeper. *)
Theorem discovery_throws_iff_falsy_entry (e : eprov) :
  ((exists err, getEthereumProvider (Some e) = inr err) <->
   exists ps, prov_providers e = Some ps /\ (In PNull ps \/ In PUndef ps)) /\
  (forall err, getEthereumProvider (Some e) = inr err ->
   exists ps pre x post,
     prov_providers e = Some ps /\ ps = app pre (x :: post) /\
     (forall y, In y pre -> exists p, y = PObj p) /\
     ((x = PNull /\ err = read_error "null" "providers") \/
      (x = PUndef /\ err = read_error "undefined" "providers"))) /\
  (forall ps, prov_providers e = Some ps -> (forall y, In y ps -> exists p, y = PObj p) ->
   exists r, getEthereumProvider (Some e) = inl (Some r)).
Proof.
  unfold getEthereumProvider, candidates.
  split; [|split].
  - destruct (prov_providers e) as [ps|].
    + split.
      * intros (err & H). destruct (visit_all [e] ps) eqn:E; [discriminate H|].
        exists ps. split; [reflexivity|]. apply (visit_all_throws ps [e]). eauto.
      * intros (ps' & H & Hin). injection H as <-.
        apply (visit_all_throws ps [e]) in Hin. destruct Hin as (err & Herr).
        rewrite Herr. eauto.
    + split; [intros (err & H); discriminate H | intros (ps & H & _); discriminate H].
  - intros err H. destruct (prov_providers e) as [ps|]; [|discriminate H].
    destruct (visit_all [e] ps) eqn:E; [discriminate H|]. injection H as <-.
    destruct (visit_all_error ps [e] _ E) as (pre & x & post & Hps & Hpre & Hx).
    exists ps, pre, x, post. auto.
  - intros ps Hps Hobj. rewrite Hps.
    destruct (visit_all [e] ps) eqn:E; [eauto|].
    assert (Hin : In PNull ps \/ In PUndef ps) by (apply (visit_all_throws ps [e]); eauto).
    destruct Hin as [Hin|Hin]; destruct (Hobj _ Hin) as (p & Hp); discriminate Hp.
Qed.

(** X2: when discovery does not throw, the provider returned is the first
    candidate flagged [isMetaMask] if there is one, and [window.ethereum]
    itself otherwise. *)
Theorem discovery_prefers_metamask (e : eprov) (all : list eprov)
    (Hc : candidates e = inl all) :
  exists r, getEthereumProvider (Some e) = inl (Some r) /\
    ((exists q, In q all /\ prov_isMetaMask q = true) ->
     prov_isMetaMask r = true /\
     exists pre post, all = app pre (r :: post) /\
       forall q, In q pre -> prov_isMetaMask q = false) /\
    ((forall q, In q all -> prov_isMetaMask q = false) -> r = e).
Proof.
  unfold getEthereumProvider. rewrite Hc.
  destruct (find prov_isMetaMask all) as [m|] eqn:Hf.
  - exists m. split; [reflexivity|].
    destruct (find_first prov_isMetaMask all m Hf) as (pre & post & Hall & Hm & Hpre).
    split.
    + intros _. split; [exact Hm|]. exists pre, post. split; assumption.
    + intros Hno. rewrite (Hno m) in Hm; [discriminate Hm|].
      rewrite Hall. apply in_or_app. right. left. reflexivity.
  - exists e. split; [reflexivity|]. split; [|reflexivity].
    intros (q & Hq & Hmq). rewrite (find_none _ _ Hf q Hq) in Hmq. discriminate Hmq.
Qed.

Lemma discovery_prefers_metamask_witness :
  candidates ex_eth = inl [ex_eth; mk_prov "coinbase" false None None;
                           mk_prov "metamask" true None None] /\
  exists r, getEthereumProvider (Some ex_eth) = inl (Some r) /\
    ((exists q, In q [ex_eth; mk_prov "coinbase" false None None;
                      mk_prov "metamask" true None None] /\ prov_isMetaMask q = true) ->
     prov_isMetaMask r = true /\
     exists pre post, [ex_eth; mk_prov "coinbase" false None None;
                       mk_prov "metamask" true None None] = app pre (r :: post) /\
       forall q, In q pre -> prov_isMetaMask q = false) /\
    ((forall q, In q [ex_eth; mk_prov "coinbase" false None None;
                      mk_prov "metamask" true None None] -> prov_isMetaMask q = false) -> r = ex_eth).
Proof.
  split; [reflexivity|].
  apply discovery_prefers_metamask. reflexivity.
Defined.

(** X3: a [window.ethereum] that is itself flagged [isMetaMask] is
    returned as it is, whatever providers it aggregates. *)
Theorem discovery_keeps_metamask_eth (e : eprov) (all : list eprov)
    (Hm : prov_isMetaMask e = true) (Hc : candidates e = inl all) :
  getEthereumProvider (Some e) = inl (Some e).
Proof.
  unfold getEthereumProvider. rewrite Hc.
  destruct (candidates_head e all Hc) as (t & ->). cbn [find]. rewrite Hm. reflexivity.
Qed.

Lemma discovery_keeps_metamask_eth_witness :
  prov_isMetaMask (mk_prov "metamask" true (Some [PObj (mk_prov "coinbase" false None None)]) None) = true /\
  candidates (mk_prov "metamask" true (Some [PObj (mk_prov "coinbase" false None None)]) None)
  = inl [mk_prov "metamask" true (Some [PObj (mk_prov "coinbase" false None None)]) None;
         mk_prov "coinbase" false None None] /\
  getEthereumProvider (Some (mk_prov "metamask" true (Some [PObj (mk_prov "coinbase" false None None)]) None))
  = inl (Some (mk_prov "metamask" true (Some [PObj (mk_prov "coinbase" false None None)]) None)).
Proof.
  split; [reflexivity|]. split; [reflexivity|].
  apply (discovery_keeps_metamask_eth _
           [mk_prov "metamask" true (Some [PObj (mk_prov "coinbase" false None None)]) None;
            mk_prov "coinbase" false None None]); reflexivity.
Defined.

(** X4: the candidates are [window.ethereum], the objects of its
    [providers] array, and the objects one level below each of them (in
    their own [providers] array or [providerMap]); nothing deeper, and not
    the [providerMap] of [window.ethereum] itself. *)
Theorem discovery_candidates (e : eprov) (all : list eprov)
    (Hc : candidates e = inl all) (q : eprov) :
  In q all <->
  q = e \/ exists ps p, prov_providers e = Some ps /\ In (PObj p) ps /\ reached_from p q.
Proof.
  revert Hc. unfold candidates. destruct (prov_providers e) as [ps|]; intros Hc.
  - rewrite (in_visit_all ps [e] all q Hc). cbn [In]. split.
    + intros [[H|[]]|(p & H1 & H2)]; [left; auto | right; eauto].
    + intros [H|(ps' & p & H & H1 & H2)]; [left; left; auto|].
      injection H as <-. right. eauto.
  - injection Hc as <-. cbn [In]. split.
    + intros [H|[]]; left; auto.
    + intros [H|(ps & p & H & _)]; [left; auto | discriminate H].
Qed.

Lemma discovery_candidates_witness :
  candidates ex_eth = inl [ex_eth; mk_prov "coinbase" false None None;
                           mk_prov "metamask" true None None] /\
  (In (mk_prov "metamask" true None None)
      [ex_eth; mk_prov "coinbase" false None None; mk_prov "metamask" true None None] <->
   mk_prov "metamask" true None None = ex_eth \/
   exists ps p, prov_providers ex_eth = Some ps /\ In (PObj p) ps /\
     reached_from p (mk_prov "metamask" true None None)).
Proof.
  split; [reflexivity|].
  apply discovery_candidates. reflexivity.
Defined.

(* ------------------------------------------------------------------------- *)
(** ** [connectWallet] *)

(** X5: connecting either leaves account, provider, signer, chain id and
    network flag all unchanged, or sets all of them from one successful
    exchange with the wallet (first account, parsed chain id, signer), with
    [networkOk] true exactly when the chain id is the expected one. *)
Theorem connect_all_or_nothing (cfg : config) (env : connect_env) (w : world) :
  let u := w_ui w in
  let u' := w_ui (fst (connectWallet cfg env w)) in
  (account u' = account u /\ provider u' = provider u /\ signer u' = signer u /\
   chainId u' = chainId u /\ networkOk u' = networkOk u) \/
  (exists addr rest h c s,
     eth_present env = true /\ accounts_res env = inl (addr :: rest) /\
     chainId_res env = inl h /\ big_of h = inl c /\ signer_res env = inl s /\
     account u' = Some addr /\ provider u' = true /\ signer u' = Some s /\
     chainId u' = Some c /\ networkOk u' = Z.eqb c (EXPECTED_CHAIN_ID cfg) /\
     error u' = None).
Proof.
  cbv zeta. destruct w as [u tr0]. unfold_connect. crush_matches.
  all: first [ left; repeat split; reflexivity
             | right; do 5 eexists;
               repeat split; first [eassumption | reflexivity | symmetry; eassumption] ].
Qed.

(** X6: connecting to a wallet on another chain stores its chain id, clears
    the network flag and reports both chain ids in the status line. *)
Theorem connect_reports_wrong_network (cfg : config) (env : connect_env) (w : world)
    (addr : string) (rest : list string) (h : jval) (c : Z) (s : string)
    (Hp : eth_present env = true) (Ha : accounts_res env = inl (addr :: rest))
    (Hh : chainId_res env = inl h) (Hc : big_of h = inl c) (Hs : signer_res env = inl s)
    (Hne : c <> EXPECTED_CHAIN_ID cfg) :
  let u' := w_ui (fst (connectWallet cfg env w)) in
  networkOk u' = false /\ chainId u' = Some c /\ error u' = None /\
  status u' = "Wrong network: current chainId = " ++ dec c ++
              ", expected = " ++ dec (EXPECTED_CHAIN_ID cfg).
Proof.
  cbv zeta. destruct w as [u tr0]. unfold_connect. simp.
  rewrite Hp, Ha, Hh. simp. rewrite Hc, Hs. simp.
  destruct (Z.eqb_spec c (EXPECTED_CHAIN_ID cfg)) as [E|E]; [contradiction|].
  simp. repeat split.
Qed.

Lemma connect_reports_wrong_network_witness :
  eth_present (ex_connect "0xaa36a7") = true /\
  accounts_res (ex_connect "0xaa36a7") = inl ["0xabc"] /\
  chainId_res (ex_connect "0xaa36a7") = inl (JStr "0xaa36a7") /\
  big_of (JStr "0xaa36a7") = inl 11155111 /\
  signer_res (ex_connect "0xaa36a7") = inl "0xabc" /\
  11155111 <> EXPECTED_CHAIN_ID ex_cfg /\
  (let u' := w_ui (fst (connectWallet ex_cfg (ex_connect "0xaa36a7") world_init)) in
   networkOk u' = false /\ chainId u' = Some 11155111 /\ error u' = None /\
   status u' = "Wrong network: current chainId = " ++ dec 11155111 ++
               ", expected = " ++ dec (EXPECTED_CHAIN_ID ex_cfg)).
Proof.
  do 3 (split; [reflexivity|]). split; [vm_compute; reflexivity|].
  split; [reflexivity|]. split; [cbn; lia|].
  apply (connect_reports_wrong_network ex_cfg (ex_connect "0xaa36a7") world_init
           "0xabc" [] (JStr "0xaa36a7") 11155111 "0xabc");
    first [reflexivity | vm_compute; reflexivity | cbn; lia].
Defined.

(** X7: when the wallet returns no account the page shows "No account
    returned by wallet"; when a wallet request, the [BigInt] of the chain id
    or the signer fails with [e], it shows [e.message || String(e)]. *)
Theorem connect_reports_wallet_errors (cfg : config) (env : connect_env) (w : world)
    (Hp : eth_present env = true) :
  let u' := w_ui (fst (connectWallet cfg env w)) in
  (accounts_res env = inl [] -> error u' = Some "No account returned by wallet") /\
  (forall e,
     accounts_res env = inr e \/
     (exists addr rest, accounts_res env = inl (addr :: rest) /\
        (chainId_res env = inr e \/
         exists h, chainId_res env = inl h /\
           (big_of h = inr e \/
            exists c, big_of h = inl c /\ signer_res env = inr e))) ->
     error u' = Some (message_or_string e)).
Proof.
  cbv zeta. destruct w as [u tr0]. unfold_connect. simp. rewrite Hp. simp.
  split.
  - intros Ha. rewrite Ha. reflexivity.
  - intros e H.
    repeat match goal with
           | H : exists _, _ |- _ => destruct H as (? & H)
           | H : _ /\ _ |- _ => destruct H as (? & H)
           | H : _ \/ _ |- _ => destruct H as [H|H]
           end;
    repeat match goal with H : ?x = _ |- context [?x] => rewrite H; simp end;
    reflexivity.
Qed.

Lemma connect_reports_wallet_errors_witness :
  eth_present (mk_connect_env true (inr (new_error "User rejected the request."))
                 (inl (JStr "0x1")) (inl "0xabc")) = true /\
  (let env := mk_connect_env true (inr (new_error "User rejected the request."))
                (inl (JStr "0x1")) (inl "0xabc") in
   let u' := w_ui (fst (connectWallet ex_cfg env world_init)) in
   (accounts_res env = inl [] -> error u' = Some "No account returned by wallet") /\
   (forall e,
      accounts_res env = inr e \/
      (exists addr rest, accounts_res env = inl (addr :: rest) /\
         (chainId_res env = inr e \/
          exists h, chainId_res env = inl h /\
            (big_of h = inr e \/
             exists c, big_of h = inl c /\ signer_res env = inr e))) ->
      error u' = Some (message_or_string e))).
Proof.
  split; [reflexivity|].
  apply connect_reports_wallet_errors. reflexivity.
Defined.

(** X8: without an injected provider, connecting only clears the error and
    the status and shows the install alert. *)
Theorem connect_without_provider_alerts (cfg : config) (env : connect_env) (w : world)
    (Hp : eth_present env = false) :
  fst (connectWallet cfg env w)
  = mk_world (with_status (with_error (w_ui w) None) "")
             (app (w_trace w) [EAlert "No Ethereum provider detected. Please install MetaMask."]).
Proof.
  destruct w as [u tr0]. unfold_connect. simp. rewrite Hp. reflexivity.
Qed.

Lemma connect_without_provider_alerts_witness :
  eth_present (mk_connect_env false (inl []) (inl JUndef) (inl "")) = false /\
  fst (connectWallet ex_cfg (mk_connect_env false (inl []) (inl JUndef) (inl "")) ex_world)
  = mk_world (with_status (with_error (w_ui ex_world) None) "")
             (app (w_trace ex_world) [EAlert "No Ethereum provider detected. Please install MetaMask."]).
Proof.
  split; [reflexivity|].
  apply connect_without_provider_alerts. reflexivity.
Defined.

(* ------------------------------------------------------------------------- *)
(** ** [handleProveAndConsume] *)

(** X9: a submission without a signer or a provider, or with no contract
    address configured (on the right network), fetches nothing, calls
    nothing and reports the failed check. *)
Theorem submit_preflight_checks (cfg : config) (env : submit_env) (w : world) :
  let u := w_ui w in
  let w' := fst (handleProveAndConsume cfg env w) in
  ((present (signer u) = false \/ provider u = false) ->
   w_trace w' = w_trace w /\ error (w_ui w') = Some "Wallet not connected" /\
   status (w_ui w') = "Proof / transaction failed.") /\
  (present (signer u) = true -> provider u = true -> networkOk u = true ->
   truthy (BALANCE_ACCESS_ADDRESS cfg) = false ->
   w_trace w' = w_trace w /\
   error (w_ui w') = Some "VITE_BALANCE_ACCESS_ADDRESS is not defined in .env" /\
   status (w_ui w') = "Proof / transaction failed.").
Proof.
  cbv zeta. destruct w as [u tr0]. cbn [w_ui].
  destruct (present (signer u)) eqn:Hs, (provider u) eqn:Hp.
  all: unfold_submit; simp; rewrite ?Hs, ?Hp; simp.
  all: try (split; [intros [H|H]; discriminate H |]).
  all: try (split; [intros _; split; [reflexivity | split; reflexivity] |]).
  all: try (intros H; discriminate H).
  all: intros Hs1 Hp1 Hn Ha;
       first [ discriminate Hs1 | discriminate Hp1
             | rewrite ?Hn, ?Ha; simp; split; [reflexivity | split; reflexivity] ].
Qed.

(** X10: after a submission the stored transaction hash is either cleared
    or the hash of the transaction this submission sent, after both
    fetches and the [proveAndConsume] call; a hash from an earlier
    submission never survives. *)
Theorem submit_txHash_from_sent_tx (cfg : config) (env : submit_env) (w : world) :
  let w' := fst (handleProveAndConsume cfg env w) in
  txHash (w_ui w') = None \/
  exists hash wr args,
    send env = Sent hash wr /\ txHash (w_ui w') = Some hash /\
    w_trace w' = app (w_trace w) [EFetch "/balance_proof.json"; EFetch "/balance_public.json";
                                  ECall "proveAndConsume" args].
Proof.
  cbv zeta. destruct w as [u tr0]. unfold_submit. crush_matches.
  all: first [ left; reflexivity
             | right; do 3 eexists; split; [reflexivity | split; [reflexivity | trace_eq]] ].
Qed.

(** X11: a submission that completes leaves no error displayed. *)
Theorem submit_success_clears_error (cfg : config) (env : submit_env) (w : world)
    (Hok : submit_ok cfg env w = true) :
  error (w_ui (fst (handleProveAndConsume cfg env w))) = None.
Proof.
  revert Hok. destruct w as [u tr0]. unfold_submit. crush_matches.
  all: intros Hok; first [discriminate Hok | reflexivity].
Qed.

Lemma submit_success_clears_error_witness :
  submit_ok ex_cfg (ex_submit ex_public (Sent "0xh" (Mined 1))) ex_world = true /\
  error (w_ui (fst (handleProveAndConsume ex_cfg (ex_submit ex_public (Sent "0xh" (Mined 1))) ex_world))) = None.
Proof.
  split; [vm_compute; reflexivity|].
  apply submit_success_clears_error. vm_compute. reflexivity.
Defined.

(** X12: if either proof file is served with a non-OK HTTP status, both
    files are still fetched, no call is made and the page reports that the
    files could not be loaded. *)
Theorem submit_http_error_reported (cfg : config) (env : submit_env) (w : world)
    (r1 r2 : response)
    (Hs : present (signer (w_ui w)) = true) (Hp : provider (w_ui w) = true)
    (Hn : networkOk (w_ui w) = true) (Ha : truthy (BALANCE_ACCESS_ADDRESS cfg) = true)
    (H1 : proof_fetch env = FetchOk r1) (H2 : public_fetch env = FetchOk r2)
    (Hbad : ok r1 = false \/ ok r2 = false) :
  let w' := fst (handleProveAndConsume cfg env w) in
  w_trace w' = app (w_trace w) [EFetch "/balance_proof.json"; EFetch "/balance_public.json"] /\
  error (w_ui w') = Some "Unable to load balance_proof.json / balance_public.json" /\
  txHash (w_ui w') = None.
Proof.
  cbv zeta. destruct w as [u tr0]. cbn [w_ui] in *.
  unfold_submit. simp. rewrite Hs, Hp, Hn, Ha. simp. rewrite H1, H2. simp.
  assert (Hb : negb (ok r1) || negb (ok r2) = true)
    by (destruct Hbad as [Hb|Hb]; rewrite Hb; [reflexivity | apply orb_true_r]).
  rewrite Hb. simp. split; [trace_eq | split; reflexivity].
Qed.

Lemma submit_http_error_reported_witness :
  let env := mk_submit_env (FetchOk (mk_response false (BodyJson JNull)))
               (FetchOk (mk_response true (BodyJson ex_public))) (Sent "0xh" (Mined 1)) in
  present (signer (w_ui ex_world)) = true /\ provider (w_ui ex_world) = true /\
  networkOk (w_ui ex_world) = true /\ truthy (BALANCE_ACCESS_ADDRESS ex_cfg) = true /\
  (let w' := fst (handleProveAndConsume ex_cfg env ex_world) in
   w_trace w' = app (w_trace ex_world) [EFetch "/balance_proof.json"; EFetch "/balance_public.json"] /\
   error (w_ui w') = Some "Unable to load balance_proof.json / balance_public.json" /\
   txHash (w_ui w') = None).
Proof.
  cbv zeta. do 4 (split; [vm_compute; reflexivity|]).
  apply (submit_http_error_reported ex_cfg _ ex_world
           (mk_response false (BodyJson JNull)) (mk_response true (BodyJson ex_public)));
    first [vm_compute; reflexivity | left; reflexivity].
Defined.

(** X13: a public-signals array whose length is not 2 is refused before
    any call, and the page shows the shape message with the actual
    length. *)
Theorem submit_rejects_wrong_signal_count (cfg : config) (env : submit_env) (w : world)
    (p : jval) (xs : list jval)
    (Hs : present (signer (w_ui w)) = true) (Hp : provider (w_ui w) = true)
    (Hn : networkOk (w_ui w) = true) (Ha : truthy (BALANCE_ACCESS_ADDRESS cfg) = true)
    (H1 : proof_fetch env = FetchOk (mk_response true (BodyJson p)))
    (H2 : public_fetch env = FetchOk (mk_response true (BodyJson (JArr xs))))
    (Hlen : length xs <> 2%nat) :
  let w' := fst (handleProveAndConsume cfg env w) in
  w_trace w' = app (w_trace w) [EFetch "/balance_proof.json"; EFetch "/balance_public.json"] /\
  error (w_ui w') = Some (PUBLIC_SHAPE_MSG ++ dec_nat (length xs)) /\
  txHash (w_ui w') = None.
Proof.
  cbv zeta. destruct w as [u tr0]. cbn [w_ui] in *.
  unfold_submit.
  cbn -[big_at big_of map_error dec to_js_string get_prop includes friendly_of
        err_to_string PUBLIC_SHAPE_MSG].
  rewrite Hs, Hp, Hn, Ha, H1, H2.
  destruct xs as [|x0 [|x1 [|x2 xs]]]; [| | cbn in Hlen; lia |].
  all: cbn -[big_at big_of map_error dec includes friendly_of
             err_to_string PUBLIC_SHAPE_MSG].
  all: rewrite map_error_shape; split; [trace_eq | split; reflexivity].
Qed.

Lemma submit_rejects_wrong_signal_count_witness :
  present (signer (w_ui ex_world)) = true /\ provider (w_ui ex_world) = true /\
  networkOk (w_ui ex_world) = true /\ truthy (BALANCE_ACCESS_ADDRESS ex_cfg) = true /\
  length [JStr "9"] <> 2%nat /\
  (let w' := fst (handleProveAndConsume ex_cfg (ex_submit (JArr [JStr "9"]) (Sent "0xh" (Mined 1))) ex_world) in
   w_trace w' = app (w_trace ex_world) [EFetch "/balance_proof.json"; EFetch "/balance_public.json"] /\
   error (w_ui w') = Some (PUBLIC_SHAPE_MSG ++ dec_nat (length [JStr "9"])) /\
   txHash (w_ui w') = None).
Proof.
  do 4 (split; [vm_compute; reflexivity|]). split; [cbn; lia|].
  apply (submit_rejects_wrong_signal_count ex_cfg _ ex_world ex_proof [JStr "9"]);
    first [vm_compute; reflexivity | cbn; lia].
Defined.

(* ------------------------------------------------------------------------- *)
(** ** [loadContractState] *)

(** X14: without a signer or without a configured contract address, loading
    the on-chain state does nothing at all. *)
Theorem load_skipped_without_signer (cfg : config) (env : load_env) (w : world)
    (H : present (signer (w_ui w)) = false \/ truthy (BALANCE_ACCESS_ADDRESS cfg) = false) :
  loadContractState cfg env w = (w, inl tt).
Proof.
  unfold_load. destruct H as [H|H]; rewrite H; [reflexivity|].
  rewrite orb_true_r. reflexivity.
Qed.

Lemma load_skipped_without_signer_witness :
  present (signer (w_ui world_init)) = false /\
  loadContractState ex_cfg (mk_load_env (inl 5) (inl 100)) world_init = (world_init, inl tt).
Proof.
  split; [reflexivity|].
  apply load_skipped_without_signer. left. reflexivity.
Defined.

(** X15: when reading [currentRoot] or [requiredThreshold] fails, the root
    and threshold shown before are kept (a root read before the failing
    threshold is not stored) and the error's message is shown. *)
Theorem load_failure_keeps_values (cfg : config) (env : load_env) (w : world) (e : jserr)
    (Hs : present (signer (w_ui w)) = true) (Ha : truthy (BALANCE_ACCESS_ADDRESS cfg) = true)
    (Hfail : currentRoot_res env = inr e \/
             exists r, currentRoot_res env = inl r /\ requiredThreshold_res env = inr e) :
  let u' := w_ui (fst (loadContractState cfg env w)) in
  currentRoot u' = currentRoot (w_ui w) /\ threshold u' = threshold (w_ui w) /\
  error u' = Some (message_or_string e).
Proof.
  cbv zeta. destruct w as [u tr0]. cbn [w_ui] in *. unfold_load. simp.
  rewrite Hs, Ha. simp.
  destruct Hfail as [Hr|(r & Hr & Ht)]; rewrite Hr; simp; [|rewrite Ht; simp];
    (split; [reflexivity | split; reflexivity]).
Qed.

Lemma load_failure_keeps_values_witness :
  let env := mk_load_env (inl 5) (inr (new_error "missing revert data")) in
  present (signer (w_ui ex_world)) = true /\ truthy (BALANCE_ACCESS_ADDRESS ex_cfg) = true /\
  (let u' := w_ui (fst (loadContractState ex_cfg env ex_world)) in
   currentRoot u' = currentRoot (w_ui ex_world) /\ threshold u' = threshold (w_ui ex_world) /\
   error u' = Some (message_or_string (new_error "missing revert data"))).
Proof.
  cbv zeta. do 2 (split; [vm_compute; reflexivity|]).
  apply load_failure_keeps_values; [vm_compute; reflexivity | vm_compute; reflexivity |].
  right. exists 5. split; reflexivity.
Defined.

(* ------------------------------------------------------------------------- *)
(** ** What the page shows *)

(** X16: on every reachable page the account and the chain id are set
    together, and an account is only shown with a signer and a provider
    held. *)
Theorem reachable_account_connected (cfg : config) (acts : list action) :
  let u := w_ui (run cfg acts) in
  (account u = None <-> chainId u = None) /\
  (account u <> None -> present (signer u) = true /\ provider u = true).
Proof. exact (run_acct_inv cfg acts). Qed.

(** X17: on every reachable page the header reads "Network not detected"
    exactly when no account is connected, and with the default mainnet
    configuration a green network flag comes with "Ethereum Mainnet". *)
Theorem network_label_reachable (cfg : config) (acts : list action) :
  let u := w_ui (run cfg acts) in
  (networkLabel (chainId u) = "Network not detected" <-> account u = None) /\
  (networkOk u = true -> EXPECTED_CHAIN_ID cfg = 1 ->
   networkLabel (chainId u) = "Ethereum Mainnet").
Proof.
  cbv zeta. destruct (run_acct_inv cfg acts) as [Hac _].
  destruct (run_inv cfg acts) as [Hnet _].
  destruct (run cfg acts) as [u tr0]. cbn [w_ui] in *.
  split.
  - rewrite Hac. unfold networkLabel. destruct (chainId u) as [c|]; [|tauto].
    split; [|discriminate].
    destruct (Z.eqb c 1); [discriminate|].
    destruct (Z.eqb c 11155111); discriminate.
  - intros Hn He. rewrite (Hnet Hn), He. reflexivity.
Qed.

(** X18: on a reachable page whose submit button is enabled, on the expected
    network with a contract address, the button reads "Submit ZK Access
    Proof" and clicking it always gets to fetching [/balance_proof.json]. *)
Theorem enabled_submit_fetches_proof (cfg : config) (acts : list action) (env : submit_env)
    (Hen : submit_disabled (w_ui (run cfg acts)) = false)
    (Hn : networkOk (w_ui (run cfg acts)) = true)
    (Ha : truthy (BALANCE_ACCESS_ADDRESS cfg) = true) :
  let w := run cfg acts in
  submit_label (w_ui w) = "Submit ZK Access Proof" /\
  exists tr, w_trace (fst (handleProveAndConsume cfg env w))
             = app (w_trace w) (EFetch "/balance_proof.json" :: tr).
Proof.
  cbv zeta. destruct (run_acct_inv cfg acts) as [_ Hconn].
  destruct (run cfg acts) as [u tr0]. cbn [w_ui w_trace] in *.
  unfold submit_disabled in Hen. apply orb_false_iff in Hen. destruct Hen as [Hl Hacc].
  assert (Hsome : account u <> None).
  { destruct (account u); [discriminate | discriminate Hacc]. }
  destruct (Hconn Hsome) as [Hs Hp].
  split; [unfold submit_label; rewrite Hl; apply negb_false_iff in Hacc; rewrite Hacc; reflexivity|].
  unfold_submit. simp. rewrite Hs, Hp, Hn, Ha. simp.
  crush_matches.
  all: eexists; rewrite <- ?app_assoc; reflexivity.
Qed.

Lemma enabled_submit_fetches_proof_witness :
  submit_disabled (w_ui (run ex_cfg [Connect (ex_connect "0x1")])) = false /\
  networkOk (w_ui (run ex_cfg [Connect (ex_connect "0x1")])) = true /\
  truthy (BALANCE_ACCESS_ADDRESS ex_cfg) = true /\
  (let w := run ex_cfg [Connect (ex_connect "0x1")] in
   submit_label (w_ui w) = "Submit ZK Access Proof" /\
   exists tr, w_trace (fst (handleProveAndConsume ex_cfg (ex_submit ex_public (Sent "0xh" (Mined 1))) w))
              = app (w_trace w) (EFetch "/balance_proof.json" :: tr)).
Proof.
  do 3 (split; [vm_compute; reflexivity|]).
  apply enabled_submit_fetches_proof; vm_compute; reflexivity.
Defined.

(** X19: [shortAddr] shows an address of 10 characters or more as its first
    6 and last 4 characters around "..." (13 characters); an address of at
    most 4 characters is shown twice around "..."; empty or null gives
    "". *)
Theorem shortAddr_abbreviates (a : string) :
  ((10 <= String.length a)%nat ->
   exists x m y, a = x ++ m ++ y /\ String.length x = 6%nat /\ String.length y = 4%nat /\
     shortAddr (Some a) = x ++ "..." ++ y /\ String.length (shortAddr (Some a)) = 13%nat) /\
  (a <> "" -> (String.length a <= 4)%nat -> shortAddr (Some a) = a ++ "..." ++ a) /\
  shortAddr (Some "") = "" /\ shortAddr None = "".
Proof.
  split; [|split; [|split; reflexivity]].
  - intros Hl. destruct (slices_split a 6 4 ltac:(lia)) as (m & Ha & Hx & Hy).
    exists (slice_prefix a 6), m, (slice_suffix a 4).
    assert (Ht : truthy (Some a) = true).
    { destruct a; [cbn in Hl; lia | reflexivity]. }
    unfold shortAddr. rewrite Ht.
    split; [exact Ha|]. split; [exact Hx|]. split; [exact Hy|]. split; [reflexivity|].
    rewrite !string_length_app, Hx, Hy. reflexivity.
  - intros Hne Hl. unfold shortAddr.
    assert (Ht : truthy (Some a) = true).
    { destruct a; [contradiction | reflexivity]. }
    rewrite Ht. unfold slice_prefix, slice_suffix.
    replace (String.length a - 4)%nat with 0%nat by lia.
    rewrite !substring_list, skipn_0, !firstn_all2 by (rewrite length_list_ascii; lia).
    rewrite string_of_list_ascii_of_string. reflexivity.
Qed.

(** X20: [shortHex] returns "" exactly for [null], [""] and [0n]; its result
    has at most 17 characters; a hex text of at most 14 characters is
    shown whole, a longer one as its first 8 and last 6 characters around
    "...". *)
Theorem shortHex_abbreviates (v : hexable) :
  (shortHex v = "" <-> hex_falsy v = true) /\
  (String.length (shortHex v) <= 17)%nat /\
  (hex_falsy v = false -> (String.length (hex_text v) <= 14)%nat -> shortHex v = hex_text v) /\
  (hex_falsy v = false -> (14 < String.length (hex_text v))%nat ->
   exists x m y, hex_text v = x ++ m ++ y /\ String.length x = 8%nat /\
     String.length y = 6%nat /\ shortHex v = x ++ "..." ++ y).
Proof.
  unfold shortHex.
  destruct (hex_falsy v) eqn:Hf.
  - split; [split; reflexivity|]. split; [cbn; lia|]. split; intros H; discriminate H.
  - pose proof (hex_text_nonempty v Hf) as Hne.
    destruct (Nat.leb_spec (String.length (hex_text v)) 14) as [Hle|Hgt].
    + split; [split; [intros H; contradiction | discriminate]|].
      split; [lia|]. split; [reflexivity|]. intros _ H; lia.
    + destruct (slices_split (hex_text v) 8 6 ltac:(lia)) as (m & Ha & Hx & Hy).
      split; [split; [intros H; destruct (slice_prefix (hex_text v) 8); discriminate | discriminate]|].
      split; [rewrite !string_length_app, Hx, Hy; cbn; lia|].
      split; [intros _ H; lia|].
      intros _ _. exists (slice_prefix (hex_text v) 8), m, (slice_suffix (hex_text v) 6).
      split; [exact Ha|]. split; [exact Hx|]. split; [exact Hy|reflexivity].
Qed.
